(** * Vertex AI Memory Bank MCP server: the tool gateway, shallowly embedded

    The development follows the Python sources:
    - [src/validators.py]  : [validate_scope], [validate_conversation],
                             [validate_memory_fact];
    - [src/formatters.py]  : [format_memory], [format_conversation_events],
                             [format_ttl_expiration], [format_error_response],
                             [format_success_response];
    - [src/app_state.py]   : [AppState], [is_ready], [reset];
    - [src/config.py]      : [Config], [is_valid];
    - [src/tools.py]       : the six tools registered by [register_tools];
    - [src/server.py]      : [lifespan].

    Python values are a small dynamic universe [PyVal]; code that can raise
    lives in the error type [Res]; the tools run in a monad [M] that threads
    the process-wide [AppState], records every call made on the remote client
    and carries a raised exception until a [try]/[except] catches it. *)

From Stdlib Require Import String Ascii List ZArith Lia Bool DecimalString.
Import ListNotations.
Open Scope string_scope.
Set Warnings "-register-all".


(* ================================================================== *)
(** ** Exceptions and fallible results *)

(** An instance of a subclass of Python's [Exception]: its class name and the
    text [str(e)] gives.  [BaseException]-only signals (KeyboardInterrupt,
    SystemExit) are process control and are outside the model. *)
Record Exn : Type := mkExn { exn_class : string; exn_str : string }.

Inductive Res (A : Type) : Type :=
| Ok (a : A)
| Raise (e : Exn).
Arguments Ok {A} a.
Arguments Raise {A} e.

Definition res_bind {A B} (r : Res A) (f : A -> Res B) : Res B :=
  match r with
  | Ok a => f a
  | Raise e => Raise e
  end.

(* ================================================================== *)
(** ** Strings as Python uses them

    A character is an [ascii], read as a code point in 0..255. *)

(** [str.isspace] on one code point below 256. *)
Definition is_space (c : ascii) : bool :=
  let n := nat_of_ascii c in
  ((9 <=? n)%nat && (n <=? 13)%nat) || ((28 <=? n)%nat && (n <=? 32)%nat)
  || (n =? 133)%nat || (n =? 160)%nat.

Fixpoint lstrip (s : string) : string :=
  match s with
  | EmptyString => EmptyString
  | String c r => if is_space c then lstrip r else s
  end.

Fixpoint rstrip (s : string) : string :=
  match s with
  | EmptyString => EmptyString
  | String c r =>
      match rstrip r with
      | EmptyString => if is_space c then EmptyString else String c EmptyString
      | r' => String c r'
      end
  end.

(** [s.strip()] *)
Definition strip (s : string) : string := rstrip (lstrip s).

(** [len(s)] *)
Definition len (s : string) : Z := Z.of_nat (String.length s).

(** [str(n)] for an integer. *)
Definition str_of_int (z : Z) : string :=
  NilZero.string_of_int (Z.to_int z).

(** [s.replace(old, new)] for a non-empty [old]: occurrences are replaced
    left to right without overlap.  [skip] counts the characters of a match
    that are still to be dropped. *)
Fixpoint replace_from (old new : string) (skip : nat) (s : string) : string :=
  match s with
  | EmptyString => EmptyString
  | String c r =>
      match skip with
      | S k => replace_from old new k r
      | O =>
          if prefix old s
          then new ++ replace_from old new (String.length old - 1) r
          else String c (replace_from old new 0 r)
      end
  end.

Definition str_replace (old new s : string) : string :=
  replace_from old new 0 s.

Fixpoint str_repeat (c : ascii) (n : nat) : string :=
  match n with
  | O => EmptyString
  | S k => String c (str_repeat c k)
  end.

(* ================================================================== *)
(** ** Python values *)

Inductive PyVal : Type :=
| PyNone
| PyBool (b : bool)
| PyInt (z : Z)
| PyFloat (text : string)
    (** a float, carried by its [repr] text: the code only passes floats on *)
| PyStr (s : string)
| PyList (items : list PyVal)
| PyDict (items : list (PyVal * PyVal))
    (** insertion-ordered pairs *)
| PyObj (cls text : string) (attrs : list (string * PyVal))
    (** an SDK object: class name, what [str()] renders, data attributes *)
| PyIter (items : list PyVal) (stop : option Exn).
    (** a pager or generator: yields [items], then raises [stop] if any *)

(** A [Dict[str, Any]] built by the code: insertion-ordered string keys. *)
Definition StrDict : Type := list (string * PyVal).

Definition py_dict (d : StrDict) : PyVal :=
  PyDict (map (fun kv => (PyStr (fst kv), snd kv)) d).

(** [type(v).__name__] *)
Definition type_name (v : PyVal) : string :=
  match v with
  | PyNone => "NoneType"
  | PyBool _ => "bool"
  | PyInt _ => "int"
  | PyFloat _ => "float"
  | PyStr _ => "str"
  | PyList _ => "list"
  | PyDict _ => "dict"
  | PyObj cls _ _ => cls
  | PyIter _ _ => "generator"
  end.

(** [bool(v)]; an SDK object defines neither [__bool__] nor [__len__]. *)
Definition truthy (v : PyVal) : bool :=
  match v with
  | PyNone => false
  | PyBool b => b
  | PyInt z => negb (z =? 0)%Z
  | PyFloat t => negb ((t =? "0.0") || (t =? "-0.0"))
  | PyStr s => negb (s =? "")
  | PyList l => match l with [] => false | _ => true end
  | PyDict d => match d with [] => false | _ => true end
  | PyObj _ _ _ => true
  | PyIter _ _ => true
  end.

Definition is_str (v : PyVal) : bool :=
  match v with PyStr _ => true | _ => false end.

(** *** Dictionaries with string keys *)

Fixpoint dict_get (d : StrDict) (k : string) : option PyVal :=
  match d with
  | [] => None
  | (k', v) :: r => if k' =? k then Some v else dict_get r k
  end.

(** [d[k] = v]: an existing key keeps its place, a new one goes last. *)
Fixpoint dict_set (d : StrDict) (k : string) (v : PyVal) : StrDict :=
  match d with
  | [] => [(k, v)]
  | (k', v') :: r =>
      if k' =? k then (k', v) :: r else (k', v') :: dict_set r k v
  end.

(** [d.update(e)] *)
Definition dict_update (d e : StrDict) : StrDict :=
  fold_left (fun acc kv => dict_set acc (fst kv) (snd kv)) e d.

Definition dict_keys (d : StrDict) : list string := map fst d.

(** Lookup of a [str] key in a dictionary with arbitrary keys: only a [str]
    key compares equal to a [str]. *)
Fixpoint pydict_get (d : list (PyVal * PyVal)) (k : string) : option PyVal :=
  match d with
  | [] => None
  | (PyStr k', v) :: r => if k' =? k then Some v else pydict_get r k
  | _ :: r => pydict_get r k
  end.

(** [k in d] *)
Definition pydict_contains (d : list (PyVal * PyVal)) (k : string) : bool :=
  match pydict_get d k with Some _ => true | None => false end.

(** *** Attributes

    Only SDK objects carry the attributes the gateway reads ([name], [fact],
    [scope], [created_time], [updated_time], [api_resource], [response],
    [done], [action], [memory], [distance], [generatedMemories],
    [generated_memories]): no builtin type defines one of them. *)

Definition AttributeError (v : PyVal) (name : string) : Exn :=
  mkExn "AttributeError"
        ("'" ++ type_name v ++ "' object has no attribute '" ++ name ++ "'").

(** [v.name] *)
Definition getattr (v : PyVal) (name : string) : Res PyVal :=
  match v with
  | PyObj _ _ attrs =>
      match dict_get attrs name with
      | Some x => Ok x
      | None => Raise (AttributeError v name)
      end
  | _ => Raise (AttributeError v name)
  end.

(** [getattr(v, name, default)]: only an [AttributeError] is swallowed. *)
Definition getattr3 (v : PyVal) (name : string) (default : PyVal) : Res PyVal :=
  match getattr v name with
  | Ok x => Ok x
  | Raise e =>
      if exn_class e =? "AttributeError" then Ok default else Raise e
  end.

(** [hasattr(v, name)] *)
Definition hasattr (v : PyVal) (name : string) : bool :=
  match getattr v name with
  | Ok _ => true
  | Raise _ => false
  end.

(** *** Subscripts, hashing, iteration *)

Definition TypeError (msg : string) : Exn := mkExn "TypeError" msg.

(** [v[k]] for a [str] key [k]; [str(KeyError(k))] is the [repr] of the
    key, which is the key in quotes for the literal keys the code uses. *)
Definition getitem (v : PyVal) (k : string) : Res PyVal :=
  match v with
  | PyDict d =>
      match pydict_get d k with
      | Some x => Ok x
      | None => Raise (mkExn "KeyError" ("'" ++ k ++ "'"))
      end
  | PyStr _ => Raise (TypeError "string indices must be integers, not 'str'")
  | PyList _ =>
      Raise (TypeError "list indices must be integers or slices, not str")
  | _ => Raise (TypeError ("'" ++ type_name v ++ "' object is not subscriptable"))
  end.

(** Lists and dictionaries cannot be members of a set. *)
Definition hashable (v : PyVal) : bool :=
  match v with
  | PyList _ | PyDict _ => false
  | _ => true
  end.

(** Iterating a value: what it yields, and the exception that ends the
    iteration when there is one. *)
Definition py_iter (v : PyVal) : list PyVal * option Exn :=
  match v with
  | PyList l => (l, None)
  | PyIter l stop => (l, stop)
  | PyDict d => (map fst d, None)
  | PyStr s => (map (fun c => PyStr (String c EmptyString)) (list_ascii_of_string s), None)
  | _ => ([], Some (TypeError ("'" ++ type_name v ++ "' object is not iterable")))
  end.

(** [list(v)] *)
Definition py_list (v : PyVal) : Res (list PyVal) :=
  match py_iter v with
  | (l, None) => Ok l
  | (_, Some e) => Raise e
  end.

(** A loop body applied to each element in turn, stopping at the first
    exception. *)
Fixpoint res_map {A B} (f : A -> Res B) (l : list A) : Res (list B) :=
  match l with
  | [] => Ok []
  | x :: r =>
      res_bind (f x) (fun y =>
      res_bind (res_map f r) (fun ys => Ok (y :: ys)))
  end.

(** [for x in v: out.append(f(x))], also a list comprehension over [v]: an
    exception that ends the iteration surfaces after the last element. *)
Definition py_for {B} (v : PyVal) (f : PyVal -> Res B) : Res (list B) :=
  let '(items, stop) := py_iter v in
  res_bind (res_map f items) (fun out =>
  match stop with
  | None => Ok out
  | Some e => Raise e
  end).

(* ================================================================== *)
(** ** src/validators.py and src/formatters.py *)

Section Pure.

(** Python's [repr] of a list, dictionary or generator, used when such a
    value is rendered inside a message. *)
Variable py_repr : PyVal -> string.

(** [str(v)], also what an f-string field renders. *)
Definition py_str (v : PyVal) : string :=
  match v with
  | PyNone => "None"
  | PyBool true => "True"
  | PyBool false => "False"
  | PyInt z => str_of_int z
  | PyFloat t => t
  | PyStr s => s
  | PyObj _ text _ => text
  | _ => py_repr v
  end.

(** The loop of [validate_scope] over [scope.items()]. *)
Fixpoint validate_scope_items (items : list (PyVal * PyVal)) : option string :=
  match items with
  | [] => None
  | (key, value) :: rest =>
      if negb (is_str key) || negb (is_str value)
      then Some ("Scope keys and values must be strings: "
                 ++ py_str key ++ "=" ++ py_str value)
      else validate_scope_items rest
  end.

Definition validate_scope (scope : PyVal) : option string :=
  match scope with
  | PyDict items =>
      match items with
      | [] => Some "Scope cannot be empty"
      | _ => validate_scope_items items
      end
  | _ => Some "Scope must be a dictionary"
  end.

Definition valid_roles : list string := ["user"; "assistant"; "system"].

(** [role not in valid_roles], on a set: hashing comes first. *)
Definition role_not_in_valid_roles (role : PyVal) : Res bool :=
  if hashable role
  then Ok (match role with
           | PyStr s => negb (existsb (String.eqb s) valid_roles)
           | _ => true
           end)
  else Raise (TypeError ("unhashable type: '" ++ type_name role ++ "'")).

(** The loop of [validate_conversation] over [enumerate(conversation)]. *)
Fixpoint validate_turns (i : Z) (turns : list PyVal) : Res (option string) :=
  match turns with
  | [] => Ok None
  | turn :: rest =>
      match turn with
      | PyDict d =>
          if negb (pydict_contains d "role")
          then Ok (Some ("Turn " ++ str_of_int i ++ " missing 'role' field"))
          else if negb (pydict_contains d "content")
          then Ok (Some ("Turn " ++ str_of_int i ++ " missing 'content' field"))
          else
            res_bind (getitem turn "role") (fun role =>
            res_bind (role_not_in_valid_roles role) (fun bad =>
            if bad
            then res_bind (getitem turn "role") (fun role' =>
                 Ok (Some ("Turn " ++ str_of_int i ++ " has invalid role: "
                           ++ py_str role')))
            else validate_turns (i + 1)%Z rest))
      | _ => Ok (Some ("Turn " ++ str_of_int i ++ " must be a dictionary"))
      end
  end.

Definition validate_conversation (conversation : PyVal) : Res (option string) :=
  match conversation with
  | PyList turns =>
      match turns with
      | [] => Ok (Some "Conversation cannot be empty")
      | _ => validate_turns 0 turns
      end
  | _ => Ok (Some "Conversation must be a list")
  end.

Definition validate_memory_fact (fact : string) : option string :=
  if (fact =? "") || (strip fact =? "")
  then Some "Fact cannot be empty"
  else if (10000 <? len fact)%Z
  then Some ("Fact too long: " ++ str_of_int (len fact)
             ++ " characters (max 10000)")
  else None.

(** *** Formatters *)

Definition format_memory (memory : PyVal) : Res StrDict :=
  res_bind (getattr3 memory "name" PyNone) (fun name =>
  res_bind (getattr3 memory "fact" PyNone) (fun fact =>
  res_bind (getattr3 memory "scope" PyNone) (fun scope =>
  res_bind (getattr3 memory "created_time" PyNone) (fun created =>
  res_bind (getattr3 memory "updated_time" PyNone) (fun updated =>
  Ok [ ("name", name);
       ("fact", fact);
       ("scope", scope);
       ("created_time", PyStr (py_str created));
       ("updated_time", PyStr (py_str updated)) ]))))).

(** One event of [format_conversation_events]. *)
Definition format_event (turn : PyVal) : Res PyVal :=
  res_bind (getitem turn "role") (fun role =>
  res_bind (getitem turn "content") (fun content =>
  Ok (py_dict [("content",
                py_dict [("role", role);
                         ("parts", PyList [py_dict [("text", content)]])])]))).

Definition format_conversation_events (conversation : PyVal) : Res PyVal :=
  res_bind (py_for conversation format_event) (fun events =>
  Ok (PyList events)).

Definition format_error_response (error : string) (details : option StrDict)
  : StrDict :=
  let response := [("status", PyStr "error"); ("error", PyStr error)] in
  match details with
  | Some ((_ :: _) as d) => dict_set response "details" (py_dict d)
  | _ => response
  end.

Definition format_success_response (data : option StrDict)
                                   (message : option string) : StrDict :=
  let response := [("status", PyStr "success")] in
  let response :=
    match message with
    | Some m => if m =? "" then response
                else dict_set response "message" (PyStr m)
    | None => response
    end in
  match data with
  | Some ((_ :: _) as d) => dict_update response d
  | _ => response
  end.

End Pure.

(* ================================================================== *)
(** ** The remote service *)

(** A call on [client.agent_engines], with its keyword arguments. *)
Inductive RemoteCall : Type :=
| AgentEnginesGet (name : string)
| AgentEnginesCreate (config : PyVal)
| GenerateMemories (name direct_contents_source scope config : PyVal)
| RetrieveMemories (name scope : PyVal)
                   (similarity_search_params : option PyVal)
    (** [None]: the keyword is not passed *)
| CreateMemory (name : PyVal) (fact : string) (scope config : PyVal)
| DeleteMemory (name : string)
| ListMemories (name config : PyVal).

(** A client handle answers each call with a value or an exception. *)
Definition Client : Type := RemoteCall -> Res PyVal.

(* ================================================================== *)
(** ** src/config.py and src/app_state.py *)

Record Config : Type := mkConfig {
  project_id : string;
  location : string;
  agent_engine_name : option string;
  api_key : option string
}.

(** [Config()] *)
Definition Config_default : Config := mkConfig "" "us-central1" None None.

(** [bool(self.project_id or self.api_key)] *)
Definition is_valid (c : Config) : bool :=
  if negb (project_id c =? "") then true
  else match api_key c with
       | Some k => negb (k =? "")
       | None => false
       end.

Record AppState : Type := mkAppState {
  client : option Client;
  agent_engine : PyVal;        (** [PyNone] until an engine is set *)
  config : Config;
  initialized : bool
}.

(** [AppState()] *)
Definition AppState_new : AppState :=
  mkAppState None PyNone Config_default false.

Definition is_not_None (v : PyVal) : bool :=
  match v with PyNone => false | _ => true end.

Definition is_ready (self : AppState) : bool :=
  initialized self && is_not_None (agent_engine self).

Definition reset (self : AppState) : AppState :=
  mkAppState None PyNone (config self) false.

Definition set_client (c : Client) (st : AppState) : AppState :=
  mkAppState (Some c) (agent_engine st) (config st) (initialized st).
Definition set_agent_engine (e : PyVal) (st : AppState) : AppState :=
  mkAppState (client st) e (config st) (initialized st).
Definition set_config (c : Config) (st : AppState) : AppState :=
  mkAppState (client st) (agent_engine st) c (initialized st).
Definition set_config_project_id (p : string) (st : AppState) : AppState :=
  set_config (mkConfig p (location (config st))
                       (agent_engine_name (config st)) (api_key (config st))) st.
Definition set_config_location (l : string) (st : AppState) : AppState :=
  set_config (mkConfig (project_id (config st)) l
                       (agent_engine_name (config st)) (api_key (config st))) st.
Definition set_initialized (b : bool) (st : AppState) : AppState :=
  mkAppState (client st) (agent_engine st) (config st) b.

(* ================================================================== *)
(** ** The monad of the tools *)

(** What running a piece of a tool leaves behind: the state of [app], the
    remote calls made in order, and the value returned or exception raised. *)
Record Out (A : Type) : Type := mkOut {
  out_state : AppState;
  out_calls : list RemoteCall;
  out_res : Res A
}.
Arguments mkOut {A} _ _ _.
Arguments out_state {A} _.
Arguments out_calls {A} _.
Arguments out_res {A} _.

Definition M (A : Type) : Type := AppState -> Out A.

Definition ret {A} (a : A) : M A := fun st => mkOut st [] (Ok a).

Definition raise {A} (e : Exn) : M A := fun st => mkOut st [] (Raise e).

Definition lift {A} (r : Res A) : M A := fun st => mkOut st [] r.

Definition bind {A B} (m : M A) (f : A -> M B) : M B :=
  fun st =>
    let o := m st in
    match out_res o with
    | Ok a =>
        let o' := f a (out_state o) in
        mkOut (out_state o') (out_calls o ++ out_calls o') (out_res o')
    | Raise e => mkOut (out_state o) (out_calls o) (Raise e)
    end.

Notation "x <- m ;; k" := (bind m (fun x => k))
  (at level 61, m at next level, right associativity).
Notation "m ;;; k" := (bind m (fun _ => k))
  (at level 61, right associativity).

(** [try: m  except Exception as e: h e]; what [m] did before raising
    stays done. *)
Definition try_except {A} (m : M A) (h : Exn -> M A) : M A :=
  fun st =>
    let o := m st in
    match out_res o with
    | Ok _ => o
    | Raise e =>
        let o' := h e (out_state o) in
        mkOut (out_state o') (out_calls o ++ out_calls o') (out_res o')
    end.

Definition get_app : M AppState := fun st => mkOut st [] (Ok st).

Definition update_app (f : AppState -> AppState) : M unit :=
  fun st => mkOut (f st) [] (Ok tt).

(** One call on the remote client: recorded, then answered by the client. *)
Definition remote (cl : Client) (c : RemoteCall) : M PyVal :=
  fun st => mkOut st [c] (cl c).

(** [app.client.agent_engines]: fails on [None]. *)
Definition app_client_agent_engines : M Client :=
  app <- get_app ;;
  match client app with
  | Some cl => ret cl
  | None => raise (AttributeError PyNone "agent_engines")
  end.

(** [v.api_resource.name] *)
Definition api_resource_name (v : PyVal) : Res PyVal :=
  res_bind (getattr v "api_resource") (fun r => getattr r "name").

(** [app.agent_engine.api_resource.name] *)
Definition app_agent_engine_name : M PyVal :=
  app <- get_app ;;
  lift (api_resource_name (agent_engine app)).

(* ================================================================== *)
(** ** src/tools.py *)

Definition NOT_READY : string :=
  "Memory Bank not initialized. Call initialize_memory_bank first.".

(** [if x:] on an [Optional[str]] argument. *)
Definition truthy_str (o : option string) : bool :=
  match o with Some s => negb (s =? "") | None => false end.

Section Gateway.

Variable py_repr : PyVal -> string.

(** [vertexai.Client(project=..., location=...)] *)
Variable vertexai_Client : string -> string -> Res Client.

(** [(datetime.now(timezone.utc) + timedelta(seconds=ttl)).isoformat()];
    both the [timedelta] and the sum raise [OverflowError] out of range. *)
Variable utc_now_plus_isoformat : Z -> Res string.

Definition format_ttl_expiration (ttl_seconds : Z) : Res string :=
  res_bind (utc_now_plus_isoformat ttl_seconds) (fun iso =>
  Ok (str_replace "+00:00" "Z" iso)).

(** [if error := v: return format_error_response(error)], then [k]. *)
Definition return_if_error (v : option string) (k : M StrDict) : M StrDict :=
  match v with
  | Some error =>
      if error =? "" then k else ret (format_error_response error None)
  | None => k
  end.

(** [if not app.is_ready(): return format_error_response(...)], then [k]. *)
Definition require_ready (k : M StrDict) : M StrDict :=
  fun app =>
    if negb (is_ready app)
    then ret (format_error_response NOT_READY None) app
    else k app.

(** [except Exception as e: return format_error_response(str(e))] *)
Definition error_handler (e : Exn) : M StrDict :=
  ret (format_error_response (exn_str e) None).

Definition topic_entry (topic : string) : PyVal :=
  py_dict [("managed_memory_topic",
            py_dict [("managed_topic_enum", PyStr topic)])].

Definition initialize_memory_bank (project_id location : string)
    (memory_topics : option (list string))
    (agent_engine_name : option string) : M StrDict :=
  try_except
    (client <- lift (vertexai_Client project_id location) ;;
     let config : StrDict :=
       match memory_topics with
       | Some ((_ :: _) as topics) =>
           [("customization_configs",
             PyList [py_dict [("memory_topics",
                               PyList (map topic_entry topics))]])]
       | _ => []
       end in
     let create_new : M PyVal :=
       remote client (AgentEnginesCreate
         (match config with
          | [] => PyNone
          | _ => py_dict [("context_spec",
                           py_dict [("memory_bank_config", py_dict config)])]
          end)) in
     agent_engine <-
       (match agent_engine_name with
        | Some name =>
            if negb (name =? "")
            then remote client (AgentEnginesGet name)
            else create_new
        | None => create_new
        end) ;;
     (* logger.info(f"... {agent_engine.api_resource.name}") *)
     lift (api_resource_name agent_engine) ;;;
     update_app (set_client client) ;;;
     update_app (set_agent_engine agent_engine) ;;;
     update_app (set_config_project_id project_id) ;;;
     update_app (set_config_location location) ;;;
     update_app (set_initialized true) ;;;
     engine_name <- lift (api_resource_name agent_engine) ;;
     ret (format_success_response
            (Some [("agent_engine_name", engine_name);
                   ("project_id", PyStr project_id);
                   ("location", PyStr location)])
            None))
    error_handler.

(** One entry of the [generated_memories] comprehension. *)
Definition generated_entry (mem : PyVal) : Res PyVal :=
  res_bind (getattr3 mem "action" PyNone) (fun action =>
  res_bind (if hasattr mem "memory"
            then res_bind (getattr3 mem "memory" PyNone) (fun m =>
                 getattr3 m "fact" PyNone)
            else getattr3 mem "fact" PyNone) (fun fact =>
  Ok (py_dict [("action", action); ("fact", fact)]))).

Definition generate_memories (conversation scope : PyVal)
    (wait_for_completion : bool) : M StrDict :=
  require_ready (
  return_if_error (validate_scope py_repr scope) (
  error <- lift (validate_conversation py_repr conversation) ;;
  return_if_error error (
  try_except
    (events <- lift (format_conversation_events conversation) ;;
     agent_engines <- app_client_agent_engines ;;
     name <- app_agent_engine_name ;;
     operation <- remote agent_engines
       (GenerateMemories name (py_dict [("events", events)]) scope
          (py_dict [("wait_for_completion", PyBool wait_for_completion)])) ;;
     operation_name <- lift (getattr operation "name") ;;
     done <- lift (getattr operation "done") ;;
     let result : StrDict :=
       [("operation_name", operation_name); ("done", done); ("scope", scope)] in
     done' <- lift (getattr operation "done") ;;
     result <-
       (if truthy done' && hasattr operation "response"
        then
          response <- lift (getattr operation "response") ;;
          generated_mems <-
            (if hasattr response "generatedMemories"
             then lift (getattr response "generatedMemories")
             else if hasattr response "generated_memories"
             then lift (getattr response "generated_memories")
             else ret PyNone) ;;
          if truthy generated_mems
          then entries <- lift (py_for generated_mems generated_entry) ;;
               ret (dict_set result "generated_memories" (PyList entries))
          else ret result
        else ret result) ;;
     ret (format_success_response (Some result) None))
    error_handler))).

(** The body of the loop over [list(results)] in [retrieve_memories]. *)
Definition format_retrieved (search_query : option string) (retrieved : PyVal)
  : Res StrDict :=
  res_bind (getattr retrieved "memory") (fun memory =>
  res_bind (format_memory py_repr memory) (fun memory_data =>
  if truthy_str search_query && hasattr retrieved "distance"
  then res_bind (getattr retrieved "distance") (fun distance =>
       Ok (dict_set memory_data "similarity_score" distance))
  else Ok memory_data)).

Definition retrieve_memories (scope : PyVal) (search_query : option string)
    (top_k : Z) : M StrDict :=
  require_ready (
  return_if_error (validate_scope py_repr scope) (
  try_except
    (let all_for_scope : M PyVal :=
       agent_engines <- app_client_agent_engines ;;
       name <- app_agent_engine_name ;;
       remote agent_engines (RetrieveMemories name scope None) in
     results <-
       (match search_query with
        | Some q =>
            if negb (q =? "")
            then
              agent_engines <- app_client_agent_engines ;;
              name <- app_agent_engine_name ;;
              remote agent_engines
                (RetrieveMemories name scope
                   (Some (py_dict [("search_query", PyStr q);
                                   ("top_k", PyInt top_k)])))
            else all_for_scope
        | None => all_for_scope
        end) ;;
     items <- lift (py_list results) ;;
     memories <- lift (res_map (format_retrieved search_query) items) ;;
     ret (format_success_response
            (Some [("scope", scope);
                   ("memories_count", PyInt (Z.of_nat (length memories)));
                   ("memories", PyList (map py_dict memories))])
            None))
    error_handler)).

Definition create_memory (fact : string) (scope : PyVal)
    (ttl_seconds : option Z) : M StrDict :=
  require_ready (
  return_if_error (validate_memory_fact fact) (
  return_if_error (validate_scope py_repr scope) (
  try_except
    (let memory_data : StrDict :=
       [("fact", PyStr (strip fact)); ("scope", scope)] in
     memory_data <-
       (match ttl_seconds with
        | Some ttl =>
            if negb (ttl =? 0)%Z && (0 <? ttl)%Z
            then expire_time <- lift (format_ttl_expiration ttl) ;;
                 ret (dict_set memory_data "expire_time" (PyStr expire_time))
            else ret memory_data
        | None => ret memory_data
        end) ;;
     agent_engines <- app_client_agent_engines ;;
     name <- app_agent_engine_name ;;
     operation <- remote agent_engines
       (CreateMemory name fact scope
          (match dict_get memory_data "expire_time" with
           | Some expire_time => py_dict [("expire_time", expire_time)]
           | None => PyNone
           end)) ;;
     response <- lift (getattr operation "response") ;;
     memory <- (if truthy response
                then lift (getattr operation "response")
                else ret operation) ;;
     formatted <- lift (format_memory py_repr memory) ;;
     ret (format_success_response (Some [("memory", py_dict formatted)]) None))
    error_handler))).

Definition delete_memory (memory_name : string) : M StrDict :=
  require_ready (
  try_except
    (agent_engines <- app_client_agent_engines ;;
     remote agent_engines (DeleteMemory memory_name) ;;;
     ret (format_success_response (Some [("deleted", PyStr memory_name)]) None))
    error_handler).

Definition list_memories (page_size : Z) : M StrDict :=
  require_ready (
  try_except
    (agent_engines <- app_client_agent_engines ;;
     name <- app_agent_engine_name ;;
     pager <- remote agent_engines
       (ListMemories name
          (if negb (page_size =? 0)%Z
           then py_dict [("page_size", PyInt page_size)]
           else PyNone)) ;;
     memories <- lift (py_for pager (format_memory py_repr)) ;;
     ret (format_success_response
            (Some [("count", PyInt (Z.of_nat (length memories)));
                   ("memories", PyList (map py_dict memories))])
            None))
    error_handler).

(** *** src/server.py: the startup half of [lifespan] *)

Definition lifespan (env : Config) (st : AppState) : AppState :=
  let st := set_config env st in
  if is_valid (config st)
  then match vertexai_Client (project_id (config st)) (location (config st)) with
       | Ok c => set_initialized true (set_client c st)
       | Raise _ => st
       end
  else st.

(** *** A tool invocation, as the protocol runtime dispatches it *)

Inductive ToolCall : Type :=
| InitializeMemoryBank (project_id location : string)
                       (memory_topics : option (list string))
                       (agent_engine_name : option string)
| GenerateMemoriesTool (conversation : list (list (string * string)))
                       (scope : list (string * string))
                       (wait_for_completion : bool)
| RetrieveMemoriesTool (scope : list (string * string))
                       (search_query : option string) (top_k : Z)
| CreateMemoryTool (fact : string) (scope : list (string * string))
                   (ttl_seconds : option Z)
| DeleteMemoryTool (memory_name : string)
| ListMemoriesTool (page_size : Z).

(** A [Dict[str, str]] and a [List[Dict[str, str]]] argument as values. *)
Definition py_scope (scope : list (string * string)) : PyVal :=
  PyDict (map (fun kv => (PyStr (fst kv), PyStr (snd kv))) scope).

Definition py_conversation (conversation : list (list (string * string)))
  : PyVal :=
  PyList (map py_scope conversation).

Definition run_tool (t : ToolCall) : M StrDict :=
  match t with
  | InitializeMemoryBank p l topics name => initialize_memory_bank p l topics name
  | GenerateMemoriesTool c s w =>
      generate_memories (py_conversation c) (py_scope s) w
  | RetrieveMemoriesTool s q k => retrieve_memories (py_scope s) q k
  | CreateMemoryTool f s ttl => create_memory f (py_scope s) ttl
  | DeleteMemoryTool n => delete_memory n
  | ListMemoriesTool n => list_memories n
  end.

End Gateway.

(* ================================================================== *)
(** ** The session over time *)

(** The states [app] can be in: created at import, then changed by the
    startup hook, by tool invocations and by [reset], each against whatever
    the outside world (client constructor, clock) does at that moment. *)
Inductive reachable : AppState -> Prop :=
| reach_new : reachable AppState_new
| reach_lifespan ctor env st :
    reachable st -> reachable (lifespan ctor env st)
| reach_tool py_repr ctor clock t st :
    reachable st -> reachable (out_state (run_tool py_repr ctor clock t st))
| reach_reset st :
    reachable st -> reachable (reset st).

(** ** The two envelope shapes *)

Definition success_envelope (env : StrDict) : Prop :=
  dict_get env "status" = Some (PyStr "success")
  /\ (dict_get env "message" = None
      \/ exists m, dict_get env "message" = Some (PyStr m)).

Definition error_envelope (env : StrDict) : Prop :=
  dict_get env "status" = Some (PyStr "error")
  /\ (exists m, dict_get env "error" = Some (PyStr m))
  /\ (forall k, In k (dict_keys env) ->
                k = "status" \/ k = "error" \/ k = "details").

(* ================================================================== *)
(** ** Stubs used to run the tools on concrete inputs *)

Module Stub.

Definition repr (v : PyVal) : string := "<" ++ type_name v ++ ">".

Definition engine : PyVal :=
  PyObj "AgentEngine" "AgentEngine(e1)"
    [("api_resource",
      PyObj "ReasoningEngine" "ReasoningEngine(e1)"
        [("name", PyStr "projects/p1/locations/us-central1/reasoningEngines/e1")])].

Definition engine_name : PyVal :=
  PyStr "projects/p1/locations/us-central1/reasoningEngines/e1".

Definition memory (fact : string) : PyVal :=
  PyObj "Memory" ("Memory(" ++ fact ++ ")")
    [("name", PyStr "memories/m1");
     ("fact", PyStr fact);
     ("scope", py_dict [("user_id", PyStr "u1")]);
     ("created_time", PyObj "datetime" "2025-01-01 00:00:00+00:00" []);
     ("updated_time", PyObj "datetime" "2025-01-01 00:00:00+00:00" [])].

(** A client that stores nothing: it answers every call in the shape the
    SDK documents, echoing the fact it is given. *)
Definition client_ok : Client :=
  fun c =>
    match c with
    | AgentEnginesGet _ => Ok engine
    | AgentEnginesCreate _ => Ok engine
    | GenerateMemories _ _ _ _ =>
        Ok (PyObj "Operation" "Operation(op1)"
              [("name", PyStr "operations/op1"); ("done", PyBool true)])
    | RetrieveMemories _ _ _ =>
        Ok (PyList [PyObj "RetrievedMemory" "RetrievedMemory"
                      [("memory", memory "likes dark mode")]])
    | CreateMemory _ fact _ _ =>
        Ok (PyObj "Operation" "Operation(op2)"
              [("name", PyStr "operations/op2"); ("done", PyBool true);
               ("response", memory fact)])
    | DeleteMemory _ => Ok PyNone
    | ListMemories _ _ => Ok (PyIter [memory "likes dark mode"] None)
    end.


Definition ctor_ok : string -> string -> Res Client :=
  fun _ _ => Ok client_ok.


Definition ctor_fail : string -> string -> Res Client :=
  fun _ _ => Raise (mkExn "DefaultCredentialsError" "credentials not found").

Definition clock : Z -> Res string :=
  fun ttl => Ok ("now+" ++ str_of_int ttl ++ "s+00:00").

Definition ready : AppState :=
  mkAppState (Some client_ok) engine (mkConfig "p1" "us-central1" None None) true.


Definition scope_u1 : list (string * string) := [("user_id", "u1")].

(** A client whose similarity search reports two results with distances. *)
Definition client_scored : Client :=
  fun c =>
    match c with
    | RetrieveMemories _ _ (Some _) =>
        Ok (PyList [PyObj "RetrievedMemory" "RetrievedMemory"
                      [("memory", memory "writes Python");
                       ("distance", PyFloat "0.25")];
                    PyObj "RetrievedMemory" "RetrievedMemory"
                      [("memory", memory "likes dark mode");
                       ("distance", PyFloat "0.75")]])
    | _ => client_ok c
    end.

Definition ready_scored : AppState :=
  mkAppState (Some client_scored) engine
             (mkConfig "p1" "us-central1" None None) true.

(** The environment names a project and the client can be constructed. *)
Definition env_config : Config := mkConfig "p1" "us-central1" None None.

End Stub.

(* ================================================================== *)
(** ** Specifications of monadic code *)

(** [wp m st Q]: running [m] from state [st] ends in a state, a list of
    remote calls and a result that satisfy [Q]. *)
Definition wp {A} (m : M A) (st : AppState)
    (Q : AppState -> list RemoteCall -> Res A -> Prop) : Prop :=
  Q (out_state (m st)) (out_calls (m st)) (out_res (m st)).

(** What every memory tool guarantees when invoked in state [st]: the
    session is not written, an envelope of one of the two shapes is
    returned, and at most one remote call is made, on the session's client,
    whose exception, if it raises one, is what the error envelope carries. *)
Definition tool_post (st : AppState)
  : AppState -> list RemoteCall -> Res StrDict -> Prop :=
  fun st' calls r =>
    st' = st
    /\ (exists env, r = Ok env /\ (success_envelope env \/ error_envelope env))
    /\ (calls = []
        \/ exists cl c,
             client st = Some cl /\ calls = [c]
             /\ forall e, cl c = Raise e ->
                          r = Ok (format_error_response (exn_str e) None)).


(* ================================================================== *)
(** ** Well-formed arguments and the process environment *)

(** [isinstance(v, dict)] *)
Definition is_dict_value (v : PyVal) : bool :=
  match v with PyDict _ => true | _ => false end.

(** A pair of a scope that [validate_scope] accepts. *)
Definition str_pair (kv : PyVal * PyVal) : Prop :=
  is_str (fst kv) = true /\ is_str (snd kv) = true.

(** A turn that [validate_conversation] accepts: a dictionary with a
    [content] key and a [role] that is one of the three role strings. *)
Definition valid_turn (turn : PyVal) : Prop :=
  exists d role,
    turn = PyDict d
    /\ pydict_get d "role" = Some (PyStr role)
    /\ In role valid_roles
    /\ pydict_contains d "content" = true.

(** The event [format_conversation_events] builds for one turn. *)
Definition event_of (role content : PyVal) : PyVal :=
  py_dict [("content",
            py_dict [("role", role);
                     ("parts", PyList [py_dict [("text", content)]])])].

(** [os.getenv(name, default)] over an environment [getenv]. *)
Definition getenv_default (getenv : string -> option string)
    (name default : string) : string :=
  match getenv name with
  | Some v => v
  | None => default
  end.

(** [Config.from_env()] *)
Definition Config_from_env (getenv : string -> option string) : Config :=
  mkConfig (getenv_default getenv "GOOGLE_CLOUD_PROJECT" "")
           (getenv_default getenv "GOOGLE_CLOUD_LOCATION" "us-central1")
           (getenv "AGENT_ENGINE_NAME")
           (getenv "GOOGLE_API_KEY").

(** ** More fixtures for concrete runs *)

Module Fixture.

(** A clock that renders an aware UTC time as [datetime.isoformat] does. *)
Definition clock_iso : Z -> Res string :=
  fun _ => Ok "2025-01-01T01:00:00.000000+00:00".


(** An environment that sets only an API key. *)
Definition env_api_key_only (name : string) : option string :=
  if name =? "GOOGLE_API_KEY" then Some "k-123" else None.

(** An environment that sets nothing. *)
Definition env_empty (name : string) : option string := None.

(** A client whose generation is done with an empty [generatedMemories]
    and a non-empty [generated_memories]. *)
Definition client_generated : Client :=
  fun c =>
    match c with
    | GenerateMemories _ _ _ _ =>
        Ok (PyObj "Operation" "Operation(op3)"
              [("name", PyStr "operations/op3");
               ("done", PyBool true);
               ("response",
                PyObj "GenerateMemoriesResponse" "response"
                  [("generatedMemories", PyList []);
                   ("generated_memories",
                    PyList [PyObj "GeneratedMemory" "g"
                              [("action", PyStr "CREATED");
                               ("fact", PyStr "likes tea")]])])])
    | _ => Stub.client_ok c
    end.

Definition ready_generated : AppState :=
  mkAppState (Some client_generated) Stub.engine Stub.env_config true.

(** A client whose retrieval returns an item without [memory]. *)
Definition client_malformed : Client :=
  fun c =>
    match c with
    | RetrieveMemories _ _ _ =>
        Ok (PyList [PyObj "RetrievedMemory" "r1"
                      [("memory", Stub.memory "likes dark mode")];
                    PyObj "RetrievedMemory" "r2" []])
    | _ => Stub.client_ok c
    end.

Definition ready_malformed : AppState :=
  mkAppState (Some client_malformed) Stub.engine Stub.env_config true.



(** A client whose create operation has no [response] attribute. *)
Definition client_no_response : Client :=
  fun c =>
    match c with
    | CreateMemory _ _ _ _ =>
        Ok (PyObj "Operation" "Operation(op4)"
              [("name", PyStr "operations/op4"); ("done", PyBool false)])
    | _ => Stub.client_ok c
    end.

Definition ready_no_response : AppState :=
  mkAppState (Some client_no_response) Stub.engine Stub.env_config true.

End Fixture.

(* ================================================================== *)
(** * Properties *)

(** ** Dictionaries *)

Lemma dict_get_set_same (d : StrDict) k v :
  dict_get (dict_set d k v) k = Some v.
Proof.
  induction d as [|[k' v'] r IH]; simpl.
  - now rewrite String.eqb_refl.
  - destruct (k' =? k) eqn:E; simpl; rewrite E; auto.
Qed.

Lemma dict_get_set_other (d : StrDict) k k' v :
  k' <> k -> dict_get (dict_set d k' v) k = dict_get d k.
Proof.
  intros Hne. induction d as [|[k0 v0] r IH]; simpl.
  - apply String.eqb_neq in Hne. now rewrite Hne.
  - destruct (k0 =? k') eqn:E; simpl.
    + apply String.eqb_eq in E. subst k0.
      apply String.eqb_neq in Hne. now rewrite Hne.
    + destruct (k0 =? k); auto.
Qed.

Lemma dict_get_update_notin (e d : StrDict) k :
  ~ In k (dict_keys e) -> dict_get (dict_update d e) k = dict_get d k.
Proof.
  unfold dict_update. revert d.
  induction e as [|[k' v'] r IH]; intros d Hnot; simpl; auto.
  rewrite IH.
  - apply dict_get_set_other. intro; subst. apply Hnot. now left.
  - intro Hin. apply Hnot. now right.
Qed.

Lemma dict_get_update_in (e d : StrDict) k v :
  NoDup (dict_keys e) -> dict_get e k = Some v ->
  dict_get (dict_update d e) k = Some v.
Proof.
  unfold dict_update. revert d.
  induction e as [|[k' v'] r IH]; intros d Hnd Hget; simpl in *.
  - discriminate.
  - inversion Hnd as [|? ? Hnotin Hnd']; subst.
    destruct (k' =? k) eqn:E.
    + apply String.eqb_eq in E. subst k'. injection Hget as ->.
      fold (dict_update (dict_set d k v) r).
      rewrite dict_get_update_notin by assumption.
      apply dict_get_set_same.
    + now apply IH.
Qed.

(** ** src/validators.py *)

Lemma validate_memory_fact_empty fact :
  strip fact = "" -> validate_memory_fact fact = Some "Fact cannot be empty".
Proof.
  intros H. unfold validate_memory_fact. rewrite H. simpl.
  now rewrite orb_true_r.
Qed.

Lemma validate_memory_fact_nonempty fact :
  strip fact <> "" ->
  validate_memory_fact fact =
  if (10000 <? len fact)%Z
  then Some ("Fact too long: " ++ str_of_int (len fact)
             ++ " characters (max 10000)")
  else None.
Proof.
  intros H. unfold validate_memory_fact.
  assert (Hf : fact <> "") by (intros ->; now apply H).
  apply String.eqb_neq in H. apply String.eqb_neq in Hf.
  now rewrite H, Hf.
Qed.

(** C8. [validate_memory_fact(fact)] returns an error exactly when the
    trimmed fact is empty or the length of the fact exceeds 10,000
    characters; a fact that is too long gets a message spelling out its
    actual character count [len(fact)]; every other fact gets [None].
    The length tested and reported is that of the fact as given. *)
Theorem validate_memory_fact_spec (fact : string) :
  (validate_memory_fact fact <> None <->
     strip fact = "" \/ (10000 < len fact)%Z)
  /\ (strip fact = "" ->
      validate_memory_fact fact = Some "Fact cannot be empty")
  /\ (strip fact <> "" -> (10000 < len fact)%Z ->
      validate_memory_fact fact =
        Some ("Fact too long: " ++ str_of_int (len fact)
              ++ " characters (max 10000)"))
  /\ (strip fact <> "" -> (len fact <= 10000)%Z ->
      validate_memory_fact fact = None).
Proof.
  assert (Hlong : strip fact <> "" -> (10000 < len fact)%Z ->
      validate_memory_fact fact =
        Some ("Fact too long: " ++ str_of_int (len fact)
              ++ " characters (max 10000)")).
  { intros Hne Hlen. rewrite validate_memory_fact_nonempty by assumption.
    apply Z.ltb_lt in Hlen. now rewrite Hlen. }
  assert (Hok : strip fact <> "" -> (len fact <= 10000)%Z ->
      validate_memory_fact fact = None).
  { intros Hne Hlen. rewrite validate_memory_fact_nonempty by assumption.
    destruct (10000 <? len fact)%Z eqn:E; auto.
    apply Z.ltb_lt in E. lia. }
  split; [|split; [apply validate_memory_fact_empty | split; assumption]].
  destruct (string_dec (strip fact) "") as [He|Hne].
  - rewrite (validate_memory_fact_empty _ He). split; [auto | discriminate].
  - destruct (Z_lt_le_dec 10000 (len fact)) as [Hl|Hl].
    + rewrite (Hlong Hne Hl). split; [auto | discriminate].
    + rewrite (Hok Hne Hl). split; [congruence | intros [?|?]; [congruence | lia]].
Qed.

Lemma validate_memory_fact_spec_witness :
  validate_memory_fact "ok" = None
  /\ validate_memory_fact "   " = Some "Fact cannot be empty"
  /\ validate_memory_fact (str_repeat "x" 10001) =
       Some "Fact too long: 10001 characters (max 10000)".
Proof.
  split; [|split].
  - apply (proj2 (proj2 (proj2 (validate_memory_fact_spec "ok")))).
    + vm_compute. discriminate.
    + vm_compute. discriminate.
  - apply (proj1 (proj2 (validate_memory_fact_spec "   "))).
    vm_compute. reflexivity.
  - apply (proj1 (proj2 (proj2 (validate_memory_fact_spec (str_repeat "x" 10001))))).
    + vm_compute. discriminate.
    + vm_compute. reflexivity.
Defined.

(** The four facts the specification tests. *)
Example validate_memory_fact_examples :
  validate_memory_fact "" = Some "Fact cannot be empty"
  /\ validate_memory_fact "   " = Some "Fact cannot be empty"
  /\ validate_memory_fact (str_repeat "x" 10001) =
       Some "Fact too long: 10001 characters (max 10000)"
  /\ validate_memory_fact "ok" = None.
Proof. vm_compute. repeat split. Qed.

(** The limit applies before trimming: 9,999 letters and two blanks are
    refused, with the untrimmed count. *)
Example validate_memory_fact_counts_blanks :
  validate_memory_fact (str_repeat "x" 9999 ++ "  ") =
    Some "Fact too long: 10001 characters (max 10000)"
  /\ len (strip (str_repeat "x" 9999 ++ "  ")) = 9999%Z.
Proof. vm_compute. repeat split. Qed.

(** ** src/formatters.py *)

Lemma format_success_response_with_data (d : StrDict) (message : option string) :
  d <> [] ->
  exists response,
    format_success_response (Some d) message = dict_update response d.
Proof.
  intros Hd. destruct d as [|kv r]; [congruence|].
  unfold format_success_response. eexists. reflexivity.
Qed.

Lemma dict_get_update_miss (e d : StrDict) k :
  dict_get e k = None -> dict_get (dict_update d e) k = dict_get d k.
Proof.
  unfold dict_update. revert d.
  induction e as [|[k' v'] r IH]; intros d Hget; simpl in *; [reflexivity|].
  destruct (k' =? k) eqn:E; [discriminate|].
  rewrite IH by assumption.
  apply dict_get_set_other. now apply String.eqb_neq.
Qed.

(** C10. [format_success_response] sets [status], then [message] when it is
    given and non-empty, then merges [data] with [dict.update]: every field
    of [data] is in the result with its value from [data], so a ["status"]
    key of [data] replaces ["success"], and every other key reads as in the
    envelope without [data].  Falsy arguments count as absent: an empty
    message is the same as none, an empty [data] the same as none, and
    [format_success_response({}, "")] is exactly [{"status": "success"}]. *)
Theorem format_success_response_status_override :
  (* the envelope without data *)
  format_success_response None None = [("status", PyStr "success")]
  /\ (forall m, m <> "" ->
      format_success_response None (Some m) =
        [("status", PyStr "success"); ("message", PyStr m)])
  (* falsy arguments are absent arguments *)
  /\ (forall data,
      format_success_response data (Some "") =
      format_success_response data None)
  /\ (forall message,
      format_success_response (Some []) message =
      format_success_response None message)
  /\ format_success_response (Some []) (Some "") = [("status", PyStr "success")]
  (* data is merged last, by update *)
  /\ (forall data message,
      format_success_response (Some data) message =
      dict_update (format_success_response None message) data)
  /\ (forall (data : StrDict) (message : option string) (k : string),
      NoDup (dict_keys data) ->
      dict_get (format_success_response (Some data) message) k =
        match dict_get data k with
        | Some v => Some v
        | None => dict_get (format_success_response None message) k
        end)
  /\ (forall (data : StrDict) (v : PyVal) (message : option string),
      NoDup (dict_keys data) ->
      dict_get data "status" = Some v ->
      dict_get (format_success_response (Some data) message) "status" = Some v).
Proof.
  assert (Hupdate : forall data message,
            format_success_response (Some data) message =
            dict_update (format_success_response None message) data).
  { intros [|kv r] message; reflexivity. }
  assert (Hmerge : forall (data : StrDict) message k,
            NoDup (dict_keys data) ->
            dict_get (format_success_response (Some data) message) k =
              match dict_get data k with
              | Some v => Some v
              | None => dict_get (format_success_response None message) k
              end).
  { intros data message k Hnd. rewrite Hupdate.
    destruct (dict_get data k) as [v|] eqn:Hget.
    - now apply dict_get_update_in.
    - now apply dict_get_update_miss. }
  split; [reflexivity|].
  split.
  { intros m Hm. unfold format_success_response.
    apply String.eqb_neq in Hm. rewrite Hm. reflexivity. }
  split; [intros [[|kv r]|]; reflexivity|].
  split; [intros message; reflexivity|].
  split; [reflexivity|].
  split; [exact Hupdate|].
  split; [exact Hmerge|].
  intros data v message Hnd Hget. rewrite Hmerge by assumption.
  now rewrite Hget.
Qed.

Lemma format_success_response_status_override_witness :
  dict_get (format_success_response
              (Some [("status", PyStr "already_initialized"); ("n", PyInt 1)])
              (Some "done"))
           "status" = Some (PyStr "already_initialized")
  /\ dict_get (format_success_response
                 (Some [("status", PyStr "already_initialized"); ("n", PyInt 1)])
                 (Some "done"))
              "n" = Some (PyInt 1)
  /\ format_success_response None (Some "done") =
       [("status", PyStr "success"); ("message", PyStr "done")].
Proof.
  destruct format_success_response_status_override
    as (_ & Hmessage & _ & _ & _ & _ & Hmerge & Hstatus).
  assert (Hnd : NoDup (dict_keys [("status", PyStr "already_initialized");
                                  ("n", PyInt 1)]))
    by (repeat constructor; simpl; intuition discriminate).
  split; [|split].
  - apply Hstatus; [exact Hnd | reflexivity].
  - rewrite Hmerge by exact Hnd. reflexivity.
  - apply Hmessage. discriminate.
Defined.

(** What the specification tests of the two envelope builders. *)
Example format_response_no_arguments :
  format_success_response None None = [("status", PyStr "success")]
  /\ format_error_response "E" None = [("status", PyStr "error"); ("error", PyStr "E")].
Proof. split; reflexivity. Qed.

Lemma getattr_raises_AttributeError v name e :
  getattr v name = Raise e -> exn_class e = "AttributeError".
Proof.
  unfold getattr. destruct v; try (intros H; injection H as <-; reflexivity).
  destruct (dict_get attrs name); [discriminate|].
  intros H; injection H as <-; reflexivity.
Qed.

Lemma getattr3_present v name default x :
  getattr v name = Ok x -> getattr3 v name default = Ok x.
Proof. unfold getattr3. now intros ->. Qed.

Lemma getattr3_missing v name default :
  hasattr v name = false -> getattr3 v name default = Ok default.
Proof.
  unfold getattr3, hasattr. destruct (getattr v name) eqn:E; [discriminate|].
  intros _. now rewrite (getattr_raises_AttributeError _ _ _ E).
Qed.

Lemma getattr3_total v name default :
  exists x, getattr3 v name default = Ok x
            /\ (forall y, getattr v name = Ok y -> x = y)
            /\ (hasattr v name = false -> x = default).
Proof.
  destruct (getattr v name) as [y|e] eqn:E.
  - exists y. rewrite (getattr3_present _ _ default _ E).
    unfold hasattr. rewrite E. repeat split; congruence.
  - exists default. rewrite getattr3_missing by (unfold hasattr; now rewrite E).
    repeat split; congruence.
Qed.

Section FormatMemory.

Variable py_repr : PyVal -> string.

(** [format_memory] always returns, with the five keys in order. *)
Lemma format_memory_returns (memory : PyVal) :
  exists name fact scope created updated,
    format_memory py_repr memory =
      Ok [("name", name); ("fact", fact); ("scope", scope);
          ("created_time", PyStr (py_str py_repr created));
          ("updated_time", PyStr (py_str py_repr updated))]
    /\ getattr3 memory "name" PyNone = Ok name
    /\ getattr3 memory "fact" PyNone = Ok fact
    /\ getattr3 memory "scope" PyNone = Ok scope
    /\ getattr3 memory "created_time" PyNone = Ok created
    /\ getattr3 memory "updated_time" PyNone = Ok updated.
Proof.
  destruct (getattr3_total memory "name" PyNone) as (n & Hn & _).
  destruct (getattr3_total memory "fact" PyNone) as (f & Hf & _).
  destruct (getattr3_total memory "scope" PyNone) as (s & Hs & _).
  destruct (getattr3_total memory "created_time" PyNone) as (c & Hc & _).
  destruct (getattr3_total memory "updated_time" PyNone) as (u & Hu & _).
  exists n, f, s, c, u. unfold format_memory.
  rewrite Hn, Hf, Hs, Hc, Hu. simpl. repeat split.
Qed.

(** What [format_memory] computes. For every input record it returns (it
    never raises) a dictionary with exactly the keys [name], [fact],
    [scope], [created_time], [updated_time]; a present [name], [fact] or
    [scope] is copied and a missing one becomes [None]; a present
    [created_time] or [updated_time] is rendered to text and a missing one
    becomes the text ["None"], the rendering of [None], not [None] itself. *)
Theorem format_memory_defensive (memory : PyVal) :
  exists d,
    format_memory py_repr memory = Ok d
    /\ dict_keys d = ["name"; "fact"; "scope"; "created_time"; "updated_time"]
    /\ (forall field, In field ["name"; "fact"; "scope"] ->
          (forall x, getattr memory field = Ok x -> dict_get d field = Some x)
          /\ (hasattr memory field = false -> dict_get d field = Some PyNone))
    /\ (forall field, In field ["created_time"; "updated_time"] ->
          (forall x, getattr memory field = Ok x ->
                     dict_get d field = Some (PyStr (py_str py_repr x)))
          /\ (hasattr memory field = false ->
              dict_get d field = Some (PyStr "None"))).
Proof.
  destruct (format_memory_returns memory)
    as (n & f & s & c & u & Hd & Hn & Hf & Hs & Hc & Hu).
  eexists. split; [exact Hd|]. split; [reflexivity|].
  split; intros field Hin; simpl in Hin;
    repeat (destruct Hin as [<-|Hin]; [|]); try contradiction;
    (split; [intros x Hx; apply getattr3_present with (default := PyNone) in Hx
            | intros Hm; apply getattr3_missing with (default := PyNone) in Hm]).
  all: match goal with
       | H1 : getattr3 ?m ?k ?d = Ok _, H2 : getattr3 ?m ?k ?d = Ok _ |- _ =>
           rewrite H1 in H2; injection H2 as ->
       end; reflexivity.
Qed.

End FormatMemory.

Lemma format_memory_defensive_witness :
  exists d,
    format_memory Stub.repr (PyObj "Memory" "Memory()" [("fact", PyStr "likes tea")]) = Ok d
    /\ dict_get d "fact" = Some (PyStr "likes tea")
    /\ dict_get d "name" = Some PyNone
    /\ dict_get d "updated_time" = Some (PyStr "None").
Proof.
  destruct (format_memory_defensive Stub.repr
              (PyObj "Memory" "Memory()" [("fact", PyStr "likes tea")]))
    as (d & Hd & _ & Hplain & Htime).
  exists d. split; [exact Hd|]. repeat split.
  - apply (proj1 (Hplain "fact" (or_intror (or_introl eq_refl)))). reflexivity.
  - apply (proj2 (Hplain "name" (or_introl eq_refl))). reflexivity.
  - apply (proj2 (Htime "updated_time" (or_intror (or_introl eq_refl)))). reflexivity.
Defined.

(** Not every missing field becomes a null: a record without
    [created_time] gets the four-character text ["None"] there. *)
Lemma format_memory_missing_timestamp_not_null :
  ~ (forall field,
       In field ["name"; "fact"; "scope"; "created_time"; "updated_time"] ->
       hasattr (PyObj "Memory" "Memory()" [("fact", PyStr "likes tea")]) field = false ->
       exists d,
         format_memory Stub.repr
           (PyObj "Memory" "Memory()" [("fact", PyStr "likes tea")]) = Ok d
         /\ dict_get d field = Some PyNone).
Proof.
  intros H.
  destruct (H "created_time") as (d & Hd & Hget).
  - simpl. auto.
  - reflexivity.
  - vm_compute in Hd. injection Hd as <-. vm_compute in Hget. discriminate.
Qed.

(** C6 against the code. On a record that has only a [fact], the missing
    [name] and [scope] come out as [None], as the claim says of every
    missing field, but the missing [created_time] and [updated_time] come
    out as the text ["None"]: [str] is applied to the [None] default that
    the sibling fields return as it is. *)
Theorem format_memory_missing_timestamp_is_text :
  format_memory Stub.repr
    (PyObj "Memory" "Memory()" [("fact", PyStr "likes tea")]) =
    Ok [("name", PyNone);
        ("fact", PyStr "likes tea");
        ("scope", PyNone);
        ("created_time", PyStr "None");
        ("updated_time", PyStr "None")]
  /\ PyStr "None" <> PyNone
  /\ truthy (PyStr "None") = true.
Proof.
  split; [reflexivity|]. split; [discriminate | reflexivity].
Qed.

(** ** Rules for [wp] *)

Lemma wp_ret {A} (a : A) st Q : Q st [] (Ok a) -> wp (ret a) st Q.
Proof. exact (fun H => H). Qed.

Lemma wp_raise {A} e st (Q : AppState -> list RemoteCall -> Res A -> Prop) :
  Q st [] (Raise e) -> wp (raise e) st Q.
Proof. exact (fun H => H). Qed.

Lemma wp_lift {A} (r : Res A) st Q : Q st [] r -> wp (lift r) st Q.
Proof. exact (fun H => H). Qed.

Lemma wp_get_app st Q : Q st [] (Ok st) -> wp get_app st Q.
Proof. exact (fun H => H). Qed.

Lemma wp_update_app f st Q : Q (f st) [] (Ok tt) -> wp (update_app f) st Q.
Proof. exact (fun H => H). Qed.

Lemma wp_remote cl c st Q : Q st [c] (cl c) -> wp (remote cl c) st Q.
Proof. exact (fun H => H). Qed.

Lemma wp_bind {A B} (m : M A) (f : A -> M B) st
      (Q : AppState -> list RemoteCall -> Res B -> Prop) :
  wp m st (fun st' cs r =>
             match r with
             | Ok a => wp (f a) st' (fun st'' cs' r' => Q st'' (cs ++ cs')%list r')
             | Raise e => Q st' cs (Raise e)
             end) ->
  wp (bind m f) st Q.
Proof.
  unfold wp, bind. destruct (m st) as [st' cs [a|e]]; simpl; auto.
Qed.

Lemma wp_try_except {A} (m : M A) h st
      (Q : AppState -> list RemoteCall -> Res A -> Prop) :
  wp m st (fun st' cs r =>
             match r with
             | Ok a => Q st' cs (Ok a)
             | Raise e =>
                 wp (h e) st' (fun st'' cs' r' => Q st'' (cs ++ cs')%list r')
             end) ->
  wp (try_except m h) st Q.
Proof.
  unfold wp, try_except. destruct (m st) as [st' cs [a|e]]; simpl; auto.
Qed.

Lemma wp_require_ready k st Q :
  (is_ready st = false -> Q st [] (Ok (format_error_response NOT_READY None))) ->
  (is_ready st = true -> wp k st Q) ->
  wp (require_ready k) st Q.
Proof.
  unfold wp, require_ready. destruct (is_ready st); simpl; auto.
Qed.

Lemma wp_return_if_error v k st Q :
  (forall error, v = Some error -> error <> "" ->
                 Q st [] (Ok (format_error_response error None))) ->
  (v = None \/ v = Some "" -> wp k st Q) ->
  wp (return_if_error v k) st Q.
Proof.
  unfold wp, return_if_error. intros H1 H2.
  destruct v as [error|]; [|auto].
  destruct (error =? "") eqn:E.
  - apply String.eqb_eq in E. subst. auto.
  - apply String.eqb_neq in E. apply (H1 error); auto.
Qed.

(** One step of symbolic execution of a tool body. *)
Ltac wp_step :=
  cbv beta zeta;
  lazymatch goal with
  | |- wp (bind _ _) _ _ => apply wp_bind
  | |- wp (try_except _ _) _ _ => apply wp_try_except
  | |- wp (ret _) _ _ => apply wp_ret
  | |- wp (raise _) _ _ => apply wp_raise
  | |- wp (lift _) _ _ => apply wp_lift
  | |- wp get_app _ _ => apply wp_get_app
  | |- wp (update_app _) _ _ => apply wp_update_app
  | |- wp (remote _ _) _ _ => apply wp_remote
  | |- wp (error_handler _) _ _ => unfold error_handler
  | |- wp app_client_agent_engines _ _ => unfold app_client_agent_engines
  | |- wp app_agent_engine_name _ _ => unfold app_agent_engine_name
  | |- wp (require_ready _) _ _ =>
      apply wp_require_ready; [intros ? | intros ?]
  | |- wp (return_if_error _ _) _ _ =>
      apply wp_return_if_error; [intros ? ? ? | intros ?]
  | |- wp (match ?x with _ => _ end) _ _ => destruct x eqn:?
  | |- match ?x with _ => _ end => destruct x eqn:?
  end.

(** ** The envelope shapes *)

Lemma error_envelope_format e : error_envelope (format_error_response e None).
Proof.
  repeat split.
  - eexists; reflexivity.
  - simpl. intuition.
Qed.

Lemma envelope_shapes_exclusive env :
  ~ (success_envelope env /\ error_envelope env).
Proof.
  intros [[Hs _] [He _]]. rewrite Hs in He. discriminate.
Qed.

(** Closes a leaf of the symbolic execution of a memory tool. *)
Ltac tool_leaf :=
  cbv beta; cbn [app];
  split; [reflexivity|];
  split; [eexists; split; [reflexivity|];
          first [left; split; [reflexivity | left; reflexivity]
                | right; apply error_envelope_format ] |];
  first [left; reflexivity
        | right; do 2 eexists; split; [first [reflexivity | eassumption]|];
          split; [reflexivity|]; intros; congruence ].

(** ** Arguments of the declared types pass [validate_conversation]
    without an exception *)

Lemma pydict_get_py_scope (kv : list (string * string)) k v :
  pydict_get (map (fun kv => (PyStr (fst kv), PyStr (snd kv))) kv) k = Some v ->
  exists s, v = PyStr s.
Proof.
  induction kv as [|[k' v'] r IH]; simpl; [discriminate|].
  destruct (k' =? k).
  - intros H; injection H as <-. eauto.
  - exact IH.
Qed.

Lemma validate_turns_typed py_repr (conv : list (list (string * string))) :
  forall i, exists r, validate_turns py_repr i (map py_scope conv) = Ok r.
Proof.
  induction conv as [|turn rest IH]; intros i; simpl.
  - eauto.
  - destruct (pydict_contains _ "role") eqn:Hrole; simpl; [|eauto].
    destruct (pydict_contains _ "content"); simpl; [|eauto].
    unfold pydict_contains in Hrole.
    destruct (pydict_get _ "role") as [role|] eqn:Hget; [|discriminate].
    destruct (pydict_get_py_scope _ _ _ Hget) as [s ->]. simpl.
    destruct (negb _); simpl; eauto.
Qed.

Lemma validate_conversation_typed py_repr conv :
  exists r, validate_conversation py_repr (py_conversation conv) = Ok r.
Proof.
  unfold validate_conversation, py_conversation.
  destruct (map py_scope conv) eqn:E; [eauto|].
  rewrite <- E. apply validate_turns_typed.
Qed.

(** ** The memory tools, one by one *)

Section ToolFacts.

Variable py_repr : PyVal -> string.
Variable clock : Z -> Res string.

Lemma generate_memories_post conversation scope w st r :
  validate_conversation py_repr conversation = Ok r ->
  wp (generate_memories py_repr conversation scope w) st (tool_post st).
Proof.
  intros Hr. unfold generate_memories, tool_post. rewrite Hr.
  repeat wp_step; tool_leaf.
Qed.

Lemma retrieve_memories_post scope q top_k st :
  wp (retrieve_memories py_repr scope q top_k) st (tool_post st).
Proof.
  unfold retrieve_memories, tool_post.
  repeat wp_step; tool_leaf.
Qed.

Lemma create_memory_post fact scope ttl st :
  wp (create_memory py_repr clock fact scope ttl) st (tool_post st).
Proof.
  unfold create_memory, tool_post.
  repeat wp_step; tool_leaf.
Qed.

Lemma delete_memory_post name st :
  wp (delete_memory name) st (tool_post st).
Proof.
  unfold delete_memory, tool_post.
  repeat wp_step; tool_leaf.
Qed.

Lemma list_memories_post page_size st :
  wp (list_memories py_repr page_size) st (tool_post st).
Proof.
  unfold list_memories, tool_post.
  repeat wp_step; tool_leaf.
Qed.

End ToolFacts.

(** ** [initialize_memory_bank] *)

Lemma api_resource_name_present v name :
  api_resource_name v = Ok name -> v <> PyNone.
Proof. intros H ->. discriminate. Qed.

Section InitializeFacts.

Variable vertexai_Client : string -> string -> Res Client.

(** The state [initialize_memory_bank] leaves on success. *)
Lemma initialize_memory_bank_post p l topics n st :
  wp (initialize_memory_bank vertexai_Client p l topics n) st
     (fun st' calls r =>
        (exists env, r = Ok env
           /\ ((error_envelope env /\ st' = st)
               \/ (success_envelope env
                   /\ exists cl engine name,
                        vertexai_Client p l = Ok cl
                        /\ api_resource_name engine = Ok name
                        /\ st' = mkAppState (Some cl) engine
                                   (mkConfig p l (agent_engine_name (config st))
                                             (api_key (config st)))
                                   true)))
        /\ (forall e, vertexai_Client p l = Raise e ->
              st' = st /\ calls = []
              /\ r = Ok (format_error_response (exn_str e) None))
        /\ (forall cl, vertexai_Client p l = Ok cl ->
              exists c, calls = [c]
                /\ forall e, cl c = Raise e ->
                     st' = st
                     /\ r = Ok (format_error_response (exn_str e) None))).
Proof.
  unfold initialize_memory_bank.
  repeat wp_step.
  all: cbv beta; cbn [app].
  all: split;
    [ eexists; split; [reflexivity|];
      first [ left; split; [apply error_envelope_format | reflexivity]
            | right; split; [split; [reflexivity | left; reflexivity]|];
              do 3 eexists; split; [reflexivity|];
              split; [eassumption | reflexivity] ]
    | split;
      [ intros e' He'; first [discriminate | injection He' as <-; repeat split]
      | intros cl' Hcl';
        first [ discriminate
              | injection Hcl' as <-;
                eexists; split; [reflexivity|];
                intros e' He';
                first [congruence | split; [reflexivity | congruence]] ] ] ].
Qed.

End InitializeFacts.

(** ** Error messages are never empty, so [if error := ...] sees them *)







Lemma require_ready_false k st :
  is_ready st = false ->
  require_ready k st = mkOut st [] (Ok (format_error_response NOT_READY None)).
Proof. intros H. unfold require_ready. now rewrite H. Qed.

Lemma require_ready_true k st :
  is_ready st = true -> require_ready k st = k st.
Proof. intros H. unfold require_ready. now rewrite H. Qed.

(* ================================================================== *)
(** * The claims about the tool gateway *)

Section GatewayClaims.

Variable py_repr : PyVal -> string.
Variable vertexai_Client : string -> string -> Res Client.
Variable clock : Z -> Res string.

(** C2. While the session is not ready, each of [generate_memories],
    [retrieve_memories], [create_memory], [delete_memory], [list_memories]
    returns the error envelope with the fixed not-ready message, whatever
    its arguments are (valid or not: no validator is consulted), makes no
    remote call and leaves the session as it is. *)
Theorem not_ready_returns_fixed_error (st : AppState) :
  is_ready st = false ->
  let not_ready :=
    mkOut st [] (Ok [("status", PyStr "error"); ("error", PyStr NOT_READY)]) in
  (forall conversation scope w,
      generate_memories py_repr conversation scope w st = not_ready)
  /\ (forall scope search_query top_k,
      retrieve_memories py_repr scope search_query top_k st = not_ready)
  /\ (forall fact scope ttl_seconds,
      create_memory py_repr clock fact scope ttl_seconds st = not_ready)
  /\ (forall memory_name, delete_memory memory_name st = not_ready)
  /\ (forall page_size, list_memories py_repr page_size st = not_ready).
Proof.
  intros Hnot. cbv zeta.
  repeat split; intros;
    unfold generate_memories, retrieve_memories, create_memory,
           delete_memory, list_memories;
    now rewrite require_ready_false.
Qed.


(** What [tool_post] gives about one run. *)
Lemma tool_post_run (m : M StrDict) (st : AppState) :
  wp m st (tool_post st) ->
  out_state (m st) = st
  /\ (exists env, out_res (m st) = Ok env
        /\ (success_envelope env \/ error_envelope env)
        /\ ~ (success_envelope env /\ error_envelope env))
  /\ (forall cl c e,
        client st = Some cl -> In c (out_calls (m st)) -> cl c = Raise e ->
        out_res (m st) = Ok (format_error_response (exn_str e) None)).
Proof.
  unfold wp, tool_post. intros (Hst & (env & Henv & Hshape) & Hcalls).
  split; [exact Hst|]. split.
  - exists env. repeat split; auto. apply envelope_shapes_exclusive.
  - intros cl c e Hcl Hin Hraise.
    destruct Hcalls as [Hnil | (cl' & c' & Hcl' & Hone & Hconv)].
    + rewrite Hnil in Hin. contradiction.
    + rewrite Hone in Hin. destruct Hin as [<-|[]].
      rewrite Hcl in Hcl'. injection Hcl' as <-. auto.
Qed.

(** Every memory tool satisfies [tool_post] on arguments of its declared
    types. *)
Lemma memory_tools_post (t : ToolCall) (st : AppState) :
  (forall p l topics n, t <> InitializeMemoryBank p l topics n) ->
  wp (run_tool py_repr vertexai_Client clock t) st (tool_post st).
Proof.
  intros Hnot. destruct t; simpl.
  - exfalso. eapply Hnot. reflexivity.
  - destruct (validate_conversation_typed py_repr conversation) as [r Hr].
    eapply generate_memories_post. exact Hr.
  - apply retrieve_memories_post.
  - apply create_memory_post.
  - apply delete_memory_post.
  - apply list_memories_post.
Qed.



(** *** What [create_memory] sends *)

Lemma create_memory_remote_call_ttl fact scope ttl iso st cl name :
  is_ready st = true ->
  validate_memory_fact fact = None ->
  validate_scope py_repr scope = None ->
  client st = Some cl ->
  api_resource_name (agent_engine st) = Ok name ->
  (0 < ttl)%Z ->
  clock ttl = Ok iso ->
  out_calls (create_memory py_repr clock fact scope (Some ttl) st) =
    [CreateMemory name fact scope
       (py_dict [("expire_time", PyStr (str_replace "+00:00" "Z" iso))])].
Proof.
  intros Hready Hfact Hscope Hcl Hname Hpos Hclock.
  unfold create_memory. rewrite require_ready_true by assumption.
  rewrite Hfact, Hscope. cbn [return_if_error].
  change (wp (try_except
    (let memory_data : StrDict :=
       [("fact", PyStr (strip fact)); ("scope", scope)] in
     memory_data <-
       (if negb (ttl =? 0)%Z && (0 <? ttl)%Z
        then expire_time <- lift (format_ttl_expiration clock ttl) ;;
             ret (dict_set memory_data "expire_time" (PyStr expire_time))
        else ret memory_data) ;;
     agent_engines <- app_client_agent_engines ;;
     name <- app_agent_engine_name ;;
     operation <- remote agent_engines
       (CreateMemory name fact scope
          (match dict_get memory_data "expire_time" with
           | Some expire_time => py_dict [("expire_time", expire_time)]
           | None => PyNone
           end)) ;;
     response <- lift (getattr operation "response") ;;
     memory <- (if truthy response
                then lift (getattr operation "response")
                else ret operation) ;;
     formatted <- lift (format_memory py_repr memory) ;;
     ret (format_success_response (Some [("memory", py_dict formatted)]) None))
    error_handler) st
    (fun _ calls _ => calls =
       [CreateMemory name fact scope
          (py_dict [("expire_time", PyStr (str_replace "+00:00" "Z" iso))])])).
  assert (Hcond : negb (ttl =? 0)%Z && (0 <? ttl)%Z = true).
  { apply andb_true_intro. split.
    - apply negb_true_iff, Z.eqb_neq. lia.
    - apply Z.ltb_lt. exact Hpos. }
  rewrite Hcond. unfold format_ttl_expiration. rewrite Hclock.
  cbn [res_bind].
  repeat wp_step; cbv beta; cbn [app]; try congruence.
  all: injection Hname as ->; reflexivity.
Qed.

Lemma create_memory_remote_call_no_ttl fact scope ttl st cl name :
  is_ready st = true ->
  validate_memory_fact fact = None ->
  validate_scope py_repr scope = None ->
  client st = Some cl ->
  api_resource_name (agent_engine st) = Ok name ->
  (ttl = None \/ exists z, ttl = Some z /\ (z <= 0)%Z) ->
  out_calls (create_memory py_repr clock fact scope ttl st) =
    [CreateMemory name fact scope PyNone].
Proof.
  intros Hready Hfact Hscope Hcl Hname Httl.
  unfold create_memory. rewrite require_ready_true by assumption.
  rewrite Hfact, Hscope. cbn [return_if_error].
  match goal with
  | |- out_calls (?m st) = ?cs => change (wp m st (fun _ calls _ => calls = cs))
  end.
  assert (Hcond : forall z, ttl = Some z ->
                            negb (z =? 0)%Z && (0 <? z)%Z = false).
  { intros z Hz. destruct Httl as [->|(z' & -> & Hle)]; [discriminate|].
    injection Hz as <-. apply andb_false_iff. right. apply Z.ltb_ge. exact Hle. }
  repeat wp_step; cbv beta; cbn [app]; try congruence.
  all: try match goal with
       | H : negb (?z =? 0)%Z && (0 <? ?z)%Z = true |- _ =>
           rewrite (Hcond z eq_refl) in H; discriminate
       end.
  all: injection Hname as ->; reflexivity.
Qed.

(** *** What [retrieve_memories] returns *)

Lemma format_retrieved_inv q retrieved md :
  format_retrieved py_repr q retrieved = Ok md ->
  exists memory formatted,
    getattr retrieved "memory" = Ok memory
    /\ format_memory py_repr memory = Ok formatted
    /\ (truthy_str q = true ->
        forall d, getattr retrieved "distance" = Ok d ->
                  md = dict_set formatted "similarity_score" d)
    /\ (truthy_str q = true -> hasattr retrieved "distance" = false ->
        md = formatted)
    /\ (truthy_str q = false -> md = formatted).
Proof.
  unfold format_retrieved, hasattr.
  destruct (getattr retrieved "memory") as [memory|] eqn:Hm; [|discriminate].
  cbn [res_bind].
  destruct (format_memory py_repr memory) as [formatted|] eqn:Hf; [|discriminate].
  cbn [res_bind]. intros H. exists memory, formatted.
  split; [first [reflexivity | assumption]|].
  split; [first [reflexivity | assumption]|].
  destruct (truthy_str q); destruct (getattr retrieved "distance") as [d|];
    cbn [andb res_bind] in H; injection H as <-;
    repeat split; intros; congruence.
Qed.

Lemma res_map_Forall2 {A B} (f : A -> Res B) (l : list A) :
  forall out, res_map f l = Ok out -> Forall2 (fun x y => f x = Ok y) l out.
Proof.
  induction l as [|x r IH]; simpl; intros out H.
  - injection H as <-. constructor.
  - destruct (f x) as [y|] eqn:Hy; [|discriminate]. cbn [res_bind] in H.
    destruct (res_map f r) as [ys|]; [|discriminate]. cbn [res_bind] in H.
    injection H as <-. constructor; auto.
Qed.

(** C9, as the code has it. When [retrieve_memories] succeeds, it has made
    its one remote call on the session's client, a similarity search with
    [search_query] and [top_k] when [search_query] is non-empty and a plain
    fetch for the scope otherwise, and its envelope holds [scope], a
    [memories] list with one entry per item that call returned, in the
    order the remote service gave them, and [memories_count] equal to the
    length of that list.  Each entry is [format_memory] of the item's
    [memory]; with a non-empty [search_query] an item that exposes a
    [distance] also carries [similarity_score] equal to that distance, and
    an item that exposes none carries no score; with [search_query] omitted
    or empty no entry carries a score. *)
Theorem retrieve_memories_scores scope search_query top_k (st : AppState) env :
  out_res (retrieve_memories py_repr scope search_query top_k st) = Ok env ->
  dict_get env "status" = Some (PyStr "success") ->
  exists cl name results items memories,
    client st = Some cl
    /\ api_resource_name (agent_engine st) = Ok name
    /\ out_calls (retrieve_memories py_repr scope search_query top_k st) =
         [RetrieveMemories name scope
            (match search_query with
             | Some q =>
                 if negb (q =? "")
                 then Some (py_dict [("search_query", PyStr q);
                                     ("top_k", PyInt top_k)])
                 else None
             | None => None
             end)]
    /\ cl (RetrieveMemories name scope
              (match search_query with
               | Some q =>
                   if negb (q =? "")
                   then Some (py_dict [("search_query", PyStr q);
                                       ("top_k", PyInt top_k)])
                   else None
               | None => None
               end)) = Ok results
    /\ py_list results = Ok items
    /\ env = [("status", PyStr "success");
              ("scope", scope);
              ("memories_count", PyInt (Z.of_nat (length memories)));
              ("memories", PyList (map py_dict memories))]
    /\ length memories = length items
    /\ Forall2
         (fun retrieved md =>
            exists memory formatted,
              getattr retrieved "memory" = Ok memory
              /\ format_memory py_repr memory = Ok formatted
              /\ dict_get formatted "similarity_score" = None
              /\ (truthy_str search_query = true ->
                  forall d, getattr retrieved "distance" = Ok d ->
                    md = dict_set formatted "similarity_score" d
                    /\ dict_get md "similarity_score" = Some d)
              /\ (truthy_str search_query = true ->
                  hasattr retrieved "distance" = false -> md = formatted)
              /\ (truthy_str search_query = false -> md = formatted))
         items memories.
Proof.
  match goal with
  | |- out_res (?m st) = Ok env -> ?S -> _ =>
      change (wp m st (fun _ calls r =>
        r = Ok env -> S ->
        exists cl name results items memories,
          client st = Some cl
          /\ api_resource_name (agent_engine st) = Ok name
          /\ calls =
               [RetrieveMemories name scope
                  (match search_query with
                   | Some q =>
                       if negb (q =? "")
                       then Some (py_dict [("search_query", PyStr q);
                                           ("top_k", PyInt top_k)])
                       else None
                   | None => None
                   end)]
          /\ cl (RetrieveMemories name scope
                    (match search_query with
                     | Some q =>
                         if negb (q =? "")
                         then Some (py_dict [("search_query", PyStr q);
                                             ("top_k", PyInt top_k)])
                         else None
                     | None => None
                     end)) = Ok results
          /\ py_list results = Ok items
          /\ env = [("status", PyStr "success");
                    ("scope", scope);
                    ("memories_count", PyInt (Z.of_nat (length memories)));
                    ("memories", PyList (map py_dict memories))]
          /\ length memories = length items
          /\ Forall2
               (fun retrieved md =>
                  exists memory formatted,
                    getattr retrieved "memory" = Ok memory
                    /\ format_memory py_repr memory = Ok formatted
                    /\ dict_get formatted "similarity_score" = None
                    /\ (truthy_str search_query = true ->
                        forall d, getattr retrieved "distance" = Ok d ->
                          md = dict_set formatted "similarity_score" d
                          /\ dict_get md "similarity_score" = Some d)
                    /\ (truthy_str search_query = true ->
                        hasattr retrieved "distance" = false -> md = formatted)
                    /\ (truthy_str search_query = false -> md = formatted))
               items memories))
  end.
  unfold retrieve_memories.
  destruct search_query as [q|]; [destruct (negb (q =? "")) eqn:Hq|];
    repeat wp_step; cbv beta; cbn [app]; intros Henv Hstatus;
    injection Henv as <-; try discriminate Hstatus.
  all: match goal with
       | Hcl : client _ = Some ?cl,
         Hname : api_resource_name (agent_engine _) = Ok ?name,
         Hcall : ?cl _ = Ok ?results,
         Hlist : py_list ?results = Ok ?items,
         H : res_map _ ?items = Ok ?memories |- _ =>
           exists cl, name, results, items, memories;
           pose proof (res_map_Forall2 _ _ _ H) as Hall;
           (split; [reflexivity|]);
           (split; [reflexivity|]);
           (split; [reflexivity|]);
           (split; [exact Hcall|]);
           (split; [exact Hlist|])
       end;
       (split; [reflexivity|]);
       (split; [symmetry; eapply Forall2_length; exact Hall|]);
       (eapply Forall2_impl; [|exact Hall]);
       intros retrieved md Hmd;
       destruct (format_retrieved_inv _ _ _ Hmd)
         as (memory & formatted & Hm & Hf & Hscore & Hnone & Hplain);
       exists memory, formatted;
       (split; [exact Hm|]); (split; [exact Hf|]);
       (split; [destruct (format_memory_returns py_repr memory)
                  as (? & ? & ? & ? & ? & Hfm & _);
                rewrite Hfm in Hf; injection Hf as <-; reflexivity|]);
       (split; [intros Hq' d Hd; split;
                [apply Hscore; assumption
                |rewrite (Hscore Hq' d Hd); apply dict_get_set_same]|]);
       split; assumption.
Qed.

End GatewayClaims.

(* ================================================================== *)
(** * The session invariant *)

(** What holds of the session at every moment: a set [initialized] flag
    and a stored engine each come with a client. *)
Lemma reachable_client_present (st : AppState) :
  reachable st ->
  (initialized st = true -> client st <> None)
  /\ (agent_engine st <> PyNone -> client st <> None).
Proof.
  induction 1 as [| ctor env st Hreach [IHi IHe]
                  | py_repr ctor clock t st Hreach [IHi IHe]
                  | st Hreach [IHi IHe]].
  - split; [discriminate | intros H; now elim H].
  - unfold lifespan. cbn [config set_config].
    destruct (is_valid env); [|exact (conj IHi IHe)].
    destruct (ctor (project_id env) (location env)); [|exact (conj IHi IHe)].
    split; discriminate.
  - destruct t as [p l topics n| | | | |].
    1: {
      pose proof (initialize_memory_bank_post ctor p l topics n st) as Hpost.
      unfold wp in Hpost.
      destruct Hpost as ((env & _ & [[_ Hst] | [_ (cl & e & nm & _ & _ & Hst)]]) & _).
      - cbn [run_tool]. rewrite Hst. exact (conj IHi IHe).
      - cbn [run_tool]. rewrite Hst. split; discriminate. }
    all: match goal with
         | |- context [run_tool ?r ?c ?k ?t ?s] =>
             destruct (tool_post_run (run_tool r c k t) s) as (Hst & _);
             [ apply memory_tools_post; intros; discriminate
             | rewrite Hst; split; assumption ]
         end.
  - split; [discriminate | intros H; now elim H].
Qed.

(** C3, as the code has it. In every reachable state a set [initialized]
    flag implies that the client handle is present, and [is_ready()]
    implies that both the client and the engine are present.  The flag is
    raised by the success path of [initialize_memory_bank], which stores an
    engine with it, and by the startup hook [lifespan] when the environment
    configuration is valid and the client can be constructed, which stores
    no engine; no other tool writes the session. *)
Theorem session_invariant :
  (forall st, reachable st ->
      (initialized st = true -> client st <> None)
      /\ (is_ready st = true ->
          client st <> None /\ agent_engine st <> PyNone))
  /\ (forall py_repr ctor clock t st,
        initialized st = false ->
        initialized (out_state (run_tool py_repr ctor clock t st)) = true ->
        exists p l topics n env,
          t = InitializeMemoryBank p l topics n
          /\ out_res (run_tool py_repr ctor clock t st) = Ok env
          /\ success_envelope env
          /\ agent_engine (out_state (run_tool py_repr ctor clock t st))
             <> PyNone)
  /\ (forall ctor env st,
        initialized st = false ->
        initialized (lifespan ctor env st) = true ->
        is_valid env = true
        /\ (exists cl, ctor (project_id env) (location env) = Ok cl
                       /\ client (lifespan ctor env st) = Some cl)
        /\ agent_engine (lifespan ctor env st) = agent_engine st).
Proof.
  split; [|split].
  - intros st Hreach. destruct (reachable_client_present st Hreach) as [Hi He].
    split; [exact Hi|].
    unfold is_ready. intros Hready. apply andb_prop in Hready.
    destruct Hready as [Hinit Hengine].
    assert (agent_engine st <> PyNone)
      by (intros Heq; rewrite Heq in Hengine; discriminate).
    auto.
  - intros py_repr ctor clock t st Hinit Hafter.
    destruct t as [p l topics n| | | | |].
    1: {
      pose proof (initialize_memory_bank_post ctor p l topics n st) as Hpost.
      unfold wp in Hpost.
      destruct Hpost as ((env & Henv & [[_ Hst] | [Hs (cl & e & nm & _ & Hnm & Hst)]]) & _).
      - cbn [run_tool] in Hafter. rewrite Hst in Hafter. congruence.
      - exists p, l, topics, n, env. cbn [run_tool].
        repeat split; try assumption; try apply Hs.
        rewrite Hst. cbn [agent_engine].
        eapply api_resource_name_present. exact Hnm. }
    all: exfalso;
         match goal with
         | H : context [run_tool ?r ?c ?k ?t ?s] |- _ =>
             destruct (tool_post_run (run_tool r c k t) s) as (Hst & _);
             [ apply memory_tools_post; intros; discriminate
             | rewrite Hst in H; congruence ]
         end.
  - intros ctor env st Hinit. unfold lifespan. cbn [config set_config].
    destruct (is_valid env); [|cbn; congruence].
    destruct (ctor (project_id env) (location env)) as [cl|]; [|cbn; congruence].
    intros _. split; [reflexivity|]. split; [|reflexivity].
    exists cl. split; reflexivity.
Qed.

Lemma session_invariant_witness :
  client (out_state (run_tool Stub.repr Stub.ctor_ok Stub.clock
                       (InitializeMemoryBank "p1" "us-central1" None None)
                       AppState_new)) <> None
  /\ agent_engine (out_state (run_tool Stub.repr Stub.ctor_ok Stub.clock
                       (InitializeMemoryBank "p1" "us-central1" None None)
                       AppState_new)) <> PyNone.
Proof.
  apply (proj1 session_invariant).
  - apply reach_tool. apply reach_new.
  - reflexivity.
Defined.

(** C3, as stated, fails: after a startup with a valid environment the
    flag is set, by [lifespan] and not by [initialize_memory_bank], while no
    engine is present. *)
Lemma lifespan_sets_initialized_without_engine :
  reachable (lifespan Stub.ctor_ok Stub.env_config AppState_new)
  /\ initialized (lifespan Stub.ctor_ok Stub.env_config AppState_new) = true
  /\ agent_engine (lifespan Stub.ctor_ok Stub.env_config AppState_new) = PyNone
  /\ ~ (forall st, reachable st -> initialized st = true ->
          client st <> None /\ agent_engine st <> PyNone).
Proof.
  assert (Hreach : reachable (lifespan Stub.ctor_ok Stub.env_config AppState_new))
    by (apply reach_lifespan, reach_new).
  repeat split; try assumption; try reflexivity.
  intros Hall.
  destruct (Hall _ Hreach eq_refl) as [_ Hengine].
  apply Hengine. reflexivity.
Qed.

(* ================================================================== *)
(** * The tools on concrete inputs *)

Lemma not_ready_returns_fixed_error_witness :
  is_ready AppState_new = false
  /\ create_memory Stub.repr Stub.clock "likes dark mode"
       (py_scope Stub.scope_u1) (Some 3600%Z) AppState_new =
     mkOut AppState_new []
       (Ok [("status", PyStr "error"); ("error", PyStr NOT_READY)])
  /\ list_memories Stub.repr 50%Z AppState_new =
     mkOut AppState_new []
       (Ok [("status", PyStr "error"); ("error", PyStr NOT_READY)]).
Proof.
  split; [reflexivity|].
  destruct (not_ready_returns_fixed_error Stub.repr Stub.clock
              AppState_new eq_refl)
    as (_ & _ & Hcreate & _ & Hlist).
  split; [apply Hcreate | apply Hlist].
Defined.




Lemma retrieve_memories_scores_witness :
  exists memories,
    out_res (retrieve_memories Stub.repr (py_scope Stub.scope_u1)
               (Some "python") 3%Z Stub.ready_scored) =
      Ok [("status", PyStr "success");
          ("scope", py_scope Stub.scope_u1);
          ("memories_count", PyInt (Z.of_nat (length memories)));
          ("memories", PyList (map py_dict memories))]
    /\ length memories = 2%nat.
Proof.
  destruct (retrieve_memories_scores Stub.repr (py_scope Stub.scope_u1)
              (Some "python") 3%Z Stub.ready_scored
              ([("status", PyStr "success");
                       ("scope", py_scope Stub.scope_u1);
                       ("memories_count", PyInt 2%Z);
                       ("memories",
                        PyList [py_dict
                          [("name", PyStr "memories/m1");
                           ("fact", PyStr "writes Python");
                           ("scope", py_dict [("user_id", PyStr "u1")]);
                           ("created_time", PyStr "2025-01-01 00:00:00+00:00");
                           ("updated_time", PyStr "2025-01-01 00:00:00+00:00");
                           ("similarity_score", PyFloat "0.25")];
                         py_dict
                          [("name", PyStr "memories/m1");
                           ("fact", PyStr "likes dark mode");
                           ("scope", py_dict [("user_id", PyStr "u1")]);
                           ("created_time", PyStr "2025-01-01 00:00:00+00:00");
                           ("updated_time", PyStr "2025-01-01 00:00:00+00:00");
                           ("similarity_score", PyFloat "0.75")]])])
              eq_refl eq_refl)
    as (cl & name & results & items & memories
        & _ & _ & _ & _ & _ & Henv & Hlen & Hall).
  exists memories. split.
  - rewrite <- Henv. reflexivity.
  - injection Henv as Hcount _.
    apply Nat2Z.inj. symmetry. exact Hcount.
Defined.

(** C9, as stated, fails: a similarity search whose result item exposes no
    [distance] returns that memory without any [similarity_score]. *)
Lemma retrieve_memories_item_without_score :
  exists md,
    out_res (retrieve_memories Stub.repr (py_scope Stub.scope_u1)
               (Some "python") 3%Z Stub.ready) =
      Ok [("status", PyStr "success");
          ("scope", py_scope Stub.scope_u1);
          ("memories_count", PyInt 1%Z);
          ("memories", PyList [py_dict md])]
    /\ dict_get md "fact" = Some (PyStr "likes dark mode")
    /\ dict_get md "similarity_score" = None.
Proof.
  eexists. split; [reflexivity|]. split; reflexivity.
Qed.

(** The same search on a client that reports distances: the call carries
    [top_k] and each of the two memories carries its score. *)
Example retrieve_memories_scored_search :
  out_calls (retrieve_memories Stub.repr (py_scope Stub.scope_u1)
               (Some "python") 3%Z Stub.ready_scored) =
    [RetrieveMemories Stub.engine_name (py_scope Stub.scope_u1)
       (Some (py_dict [("search_query", PyStr "python"); ("top_k", PyInt 3%Z)]))]
  /\ out_calls (retrieve_memories Stub.repr (py_scope Stub.scope_u1)
                  (Some "") 3%Z Stub.ready_scored) =
    [RetrieveMemories Stub.engine_name (py_scope Stub.scope_u1) None].
Proof. split; reflexivity. Qed.

(** C5 against the code. For the valid fact [" likes dark mode "] the remote
    [create_memory] call receives the fact as given, blanks included: the
    trimmed fact is computed into [memory_data] and never sent.  The
    expiration is attached, since [ttl_seconds] is positive. *)
Theorem create_memory_sends_untrimmed_fact :
  validate_memory_fact " likes dark mode " = None
  /\ validate_scope Stub.repr (py_scope Stub.scope_u1) = None
  /\ strip " likes dark mode " = "likes dark mode"
  /\ out_calls (create_memory Stub.repr Stub.clock " likes dark mode "
                  (py_scope Stub.scope_u1) (Some 3600%Z) Stub.ready) =
     [CreateMemory Stub.engine_name " likes dark mode "
        (py_scope Stub.scope_u1)
        (py_dict [("expire_time", PyStr "now+3600sZ")])]
  /\ out_calls (create_memory Stub.repr Stub.clock " likes dark mode "
                  (py_scope Stub.scope_u1) (Some 3600%Z) Stub.ready) <>
     [CreateMemory Stub.engine_name (strip " likes dark mode ")
        (py_scope Stub.scope_u1)
        (py_dict [("expire_time", PyStr "now+3600sZ")])].
Proof.
  repeat split; try reflexivity.
  vm_compute. discriminate.
Qed.

(** The expiration half of C5 holds on the code. *)
Example create_memory_expiration_examples :
  out_calls (create_memory Stub.repr Stub.clock "likes dark mode"
               (py_scope Stub.scope_u1) None Stub.ready) =
    [CreateMemory Stub.engine_name "likes dark mode" (py_scope Stub.scope_u1) PyNone]
  /\ out_calls (create_memory Stub.repr Stub.clock "likes dark mode"
                  (py_scope Stub.scope_u1) (Some 0%Z) Stub.ready) =
    [CreateMemory Stub.engine_name "likes dark mode" (py_scope Stub.scope_u1) PyNone]
  /\ out_calls (create_memory Stub.repr Stub.clock "likes dark mode"
                  (py_scope Stub.scope_u1) (Some (-5)%Z) Stub.ready) =
    [CreateMemory Stub.engine_name "likes dark mode" (py_scope Stub.scope_u1) PyNone].
Proof. repeat split; reflexivity. Qed.

(** The end-to-end scenario of the specification on the stub client. *)
Example end_to_end_create :
  out_res (run_tool Stub.repr Stub.ctor_ok Stub.clock
             (CreateMemoryTool "likes dark mode" Stub.scope_u1 (Some 3600%Z))
             (out_state (run_tool Stub.repr Stub.ctor_ok Stub.clock
                           (InitializeMemoryBank "p1" "us-central1" None None)
                           AppState_new))) =
    Ok [("status", PyStr "success");
        ("memory",
         py_dict [("name", PyStr "memories/m1");
                  ("fact", PyStr "likes dark mode");
                  ("scope", py_dict [("user_id", PyStr "u1")]);
                  ("created_time", PyStr "2025-01-01 00:00:00+00:00");
                  ("updated_time", PyStr "2025-01-01 00:00:00+00:00")])].
Proof. reflexivity. Qed.

(* ================================================================== *)
(** * Further properties of the validators *)

Section ValidatorFacts.

Variable py_repr : PyVal -> string.

Lemma validate_scope_items_none (items : list (PyVal * PyVal)) :
  validate_scope_items py_repr items = None <-> Forall str_pair items.
Proof.
  induction items as [|[k v] r IH]; simpl.
  - split; [constructor | reflexivity].
  - destruct (is_str k) eqn:Hk; destruct (is_str v) eqn:Hv; simpl.
    + rewrite IH. split.
      * intros H. constructor; [split; assumption | exact H].
      * intros H. inversion H. assumption.
    + split; [discriminate|]. intros H. inversion H as [|? ? [_ Hv'] _].
      simpl in Hv'. congruence.
    + split; [discriminate|]. intros H. inversion H as [|? ? [Hk' _] _].
      simpl in Hk'. congruence.
    + split; [discriminate|]. intros H. inversion H as [|? ? [Hk' _] _].
      simpl in Hk'. congruence.
Qed.

(** X1. [validate_scope] accepts exactly the non-empty dictionaries all of
    whose keys and values are strings. *)
Theorem validate_scope_accepts_iff (scope : PyVal) :
  validate_scope py_repr scope = None <->
  exists items,
    scope = PyDict items /\ items <> [] /\ Forall str_pair items.
Proof.
  split.
  - destruct scope; try discriminate. simpl.
    destruct items as [|kv r]; [discriminate|].
    intros H. exists (kv :: r). split; [reflexivity|]. split; [discriminate|].
    now apply validate_scope_items_none.
  - intros (items & -> & Hne & Hall). simpl.
    destruct items as [|kv r]; [congruence|].
    now apply validate_scope_items_none.
Qed.

(** X2. When a scope has an entry whose key or value is not a string,
    [validate_scope] names the first such entry, in iteration order, as
    [key=value] in its message. *)
Theorem validate_scope_names_first_offender good k v rest :
  Forall str_pair good ->
  is_str k = false \/ is_str v = false ->
  validate_scope py_repr (PyDict (good ++ (k, v) :: rest)) =
    Some ("Scope keys and values must be strings: "
          ++ py_str py_repr k ++ "=" ++ py_str py_repr v).
Proof.
  intros Hgood Hbad.
  assert (Hitems : validate_scope_items py_repr (good ++ (k, v) :: rest) =
            Some ("Scope keys and values must be strings: "
                  ++ py_str py_repr k ++ "=" ++ py_str py_repr v)).
  { induction Hgood as [|[k' v'] r [Hk Hv] _ IH]; simpl in *.
    - destruct Hbad as [-> | ->]; [reflexivity|].
      now rewrite orb_true_r.
    - rewrite Hk, Hv. simpl. exact IH. }
  unfold validate_scope.
  destruct (good ++ (k, v) :: rest)%list eqn:E; [|exact Hitems].
  destruct good; discriminate.
Qed.

(** *** Conversations *)

Lemma validate_conversation_nonempty (turns : list PyVal) :
  turns <> [] ->
  validate_conversation py_repr (PyList turns) = validate_turns py_repr 0 turns.
Proof. destruct turns; [congruence | reflexivity]. Qed.

Lemma role_in_valid_roles (role : string) :
  In role valid_roles <-> existsb (String.eqb role) valid_roles = true.
Proof.
  rewrite existsb_exists. split.
  - intros H. exists role. split; [exact H | apply String.eqb_refl].
  - intros (r & Hin & Heq). apply String.eqb_eq in Heq. now subst.
Qed.

Lemma pydict_contains_get d k v :
  pydict_get d k = Some v -> pydict_contains d k = true.
Proof. unfold pydict_contains. now intros ->. Qed.

Lemma validate_turns_valid_head i turn rest :
  valid_turn turn ->
  validate_turns py_repr i (turn :: rest) = validate_turns py_repr (i + 1) rest.
Proof.
  intros (d & role & -> & Hget & Hin & Hcontent).
  cbn [validate_turns].
  rewrite (pydict_contains_get _ _ _ Hget), Hcontent. cbn [negb].
  unfold getitem. rewrite Hget. cbn [res_bind].
  unfold role_not_in_valid_roles. cbn [hashable res_bind].
  apply role_in_valid_roles in Hin. rewrite Hin. reflexivity.
Qed.

Lemma validate_turns_skip good rest :
  Forall valid_turn good ->
  forall i,
    validate_turns py_repr i (good ++ rest) =
    validate_turns py_repr (i + Z.of_nat (length good)) rest.
Proof.
  induction 1 as [|turn good' Hturn _ IH]; intros i.
  - simpl. now rewrite Z.add_0_r.
  - cbn [app]. rewrite validate_turns_valid_head by assumption.
    rewrite IH. f_equal. cbn [length]. lia.
Qed.

Lemma validate_turns_none_inv turns :
  forall i, validate_turns py_repr i turns = Ok None -> Forall valid_turn turns.
Proof.
  induction turns as [|turn rest IH]; intros i H; [constructor|].
  cbn [validate_turns] in H.
  destruct turn as [| | | | |l|d| |]; try discriminate.
  destruct (pydict_contains d "role") eqn:Hrole; cbn [negb] in H;
    [|discriminate].
  destruct (pydict_contains d "content") eqn:Hcontent; cbn [negb] in H;
    [|discriminate].
  unfold getitem in H.
  destruct (pydict_get d "role") as [role|] eqn:Hget;
    cbn [res_bind] in H; [|discriminate].
  unfold role_not_in_valid_roles in H.
  destruct (hashable role); cbn [res_bind] in H; [|discriminate].
  destruct role as [| | | |s| | | |];
    try (cbn [res_bind] in H; discriminate).
  destruct (existsb (String.eqb s) valid_roles) eqn:Hin;
    cbn [negb res_bind] in H; [|discriminate].
  constructor.
  - exists d, s. repeat split; try assumption.
    now apply role_in_valid_roles.
  - eapply IH. exact H.
Qed.

Lemma validate_turns_none turns :
  Forall valid_turn turns -> forall i, validate_turns py_repr i turns = Ok None.
Proof.
  intros H i. rewrite <- (app_nil_r turns).
  rewrite validate_turns_skip by assumption. reflexivity.
Qed.

(** X3. [validate_conversation] accepts exactly the non-empty lists whose
    every turn is a dictionary holding a [content] key and a [role] equal to
    ["user"], ["assistant"] or ["system"]. *)
Theorem validate_conversation_accepts_iff (conversation : PyVal) :
  validate_conversation py_repr conversation = Ok None <->
  exists turns,
    conversation = PyList turns /\ turns <> [] /\ Forall valid_turn turns.
Proof.
  split.
  - destruct conversation; try discriminate. simpl.
    destruct items as [|t r]; [discriminate|].
    intros H. exists (t :: r). split; [reflexivity|]. split; [discriminate|].
    eapply validate_turns_none_inv. exact H.
  - intros (turns & -> & Hne & Hall).
    rewrite validate_conversation_nonempty by assumption.
    now apply validate_turns_none.
Qed.

Lemma app_cons_nonempty {A} (l : list A) (x : A) (r : list A) :
  (l ++ x :: r)%list <> [].
Proof. destruct l; discriminate. Qed.

(** X4. The message of [validate_conversation] carries the 0-based index of
    the first turn that fails, and says how it fails: it is not a
    dictionary; it has no [role] (whether or not it has [content]); it has
    no [content]; or its role is not one of the three role strings. *)
Theorem validate_conversation_reports_index good bad rest :
  Forall valid_turn good ->
  let i := str_of_int (Z.of_nat (length good)) in
  let result := validate_conversation py_repr (PyList (good ++ bad :: rest)) in
  (is_dict_value bad = false ->
     result = Ok (Some ("Turn " ++ i ++ " must be a dictionary")))
  /\ (forall d, bad = PyDict d -> pydict_contains d "role" = false ->
     result = Ok (Some ("Turn " ++ i ++ " missing 'role' field")))
  /\ (forall d, bad = PyDict d -> pydict_contains d "role" = true ->
     pydict_contains d "content" = false ->
     result = Ok (Some ("Turn " ++ i ++ " missing 'content' field")))
  /\ (forall d role, bad = PyDict d -> pydict_get d "role" = Some role ->
     pydict_contains d "content" = true ->
     hashable role = true ->
     (forall s, role = PyStr s -> ~ In s valid_roles) ->
     result = Ok (Some ("Turn " ++ i ++ " has invalid role: "
                        ++ py_str py_repr role))).
Proof.
  intros Hgood. cbv zeta.
  rewrite validate_conversation_nonempty by apply app_cons_nonempty.
  rewrite validate_turns_skip by assumption. rewrite Z.add_0_l.
  repeat split.
  - intros Hnot. destruct bad; try reflexivity. discriminate.
  - intros d -> Hrole. cbn [validate_turns]. now rewrite Hrole.
  - intros d -> Hrole Hcontent. cbn [validate_turns].
    now rewrite Hrole, Hcontent.
  - intros d role -> Hget Hcontent Hhash Hbad. cbn [validate_turns].
    rewrite (pydict_contains_get _ _ _ Hget), Hcontent. cbn [negb].
    unfold getitem. rewrite Hget. cbn [res_bind].
    unfold role_not_in_valid_roles. rewrite Hhash.
    assert (Hnotin : match role with
                     | PyStr s => negb (existsb (String.eqb s) valid_roles)
                     | _ => true
                     end = true).
    { destruct role; try reflexivity.
      apply negb_true_iff. destruct (existsb _ _) eqn:E; [|reflexivity].
      apply role_in_valid_roles in E. exfalso. eapply Hbad; eauto. }
    rewrite Hnotin. reflexivity.
Qed.

(** X5. A role that is a list or a dictionary cannot be looked up in the
    set of roles: at the first such turn [validate_conversation] raises a
    [TypeError] instead of returning a message.  On a conversation of the
    declared type, a list of string-to-string dictionaries, it never
    raises. *)
Theorem validate_conversation_unhashable_role good d role rest :
  Forall valid_turn good ->
  pydict_get d "role" = Some role ->
  pydict_contains d "content" = true ->
  hashable role = false ->
  validate_conversation py_repr (PyList (good ++ PyDict d :: rest)) =
    Raise (TypeError ("unhashable type: '" ++ type_name role ++ "'"))
  /\ forall typed, exists r,
      validate_conversation py_repr (py_conversation typed) = Ok r.
Proof.
  intros Hgood Hget Hcontent Hhash. split.
  - rewrite validate_conversation_nonempty by apply app_cons_nonempty.
    rewrite validate_turns_skip by assumption. cbn [validate_turns].
    rewrite (pydict_contains_get _ _ _ Hget), Hcontent. cbn [negb].
    unfold getitem. rewrite Hget. cbn [res_bind].
    unfold role_not_in_valid_roles. rewrite Hhash. reflexivity.
  - intros typed. apply validate_conversation_typed.
Qed.

(** *** From a validated conversation to events *)

Lemma valid_turn_event turn :
  valid_turn turn ->
  exists role content,
    getitem turn "role" = Ok role
    /\ getitem turn "content" = Ok content
    /\ format_event turn = Ok (event_of role content).
Proof.
  intros (d & role & -> & Hget & _ & Hcontent).
  unfold pydict_contains in Hcontent.
  destruct (pydict_get d "content") as [content|] eqn:Hc; [|discriminate].
  exists (PyStr role), content. unfold format_event, getitem.
  rewrite Hget, Hc. repeat split.
Qed.

Lemma format_events_valid turns :
  Forall valid_turn turns ->
  exists events,
    res_map format_event turns = Ok events
    /\ Forall2 (fun turn ev =>
                  exists role content,
                    getitem turn "role" = Ok role
                    /\ getitem turn "content" = Ok content
                    /\ ev = event_of role content) turns events.
Proof.
  induction 1 as [|turn rest Hturn _ (events & Hevents & Hall)].
  - exists []. split; [reflexivity | constructor].
  - destruct (valid_turn_event turn Hturn) as (role & content & Hr & Hc & Hev).
    exists (event_of role content :: events). split.
    + cbn [res_map]. rewrite Hev, Hevents. reflexivity.
    + constructor; [|exact Hall]. exists role, content. auto.
Qed.

(** X6. A conversation that [validate_conversation] accepts is always
    converted by [format_conversation_events], without an exception, into
    one event per turn in the same order, each event holding the turn's
    role and a single text part equal to the turn's content. *)
Theorem validated_conversation_events (conversation : PyVal) :
  validate_conversation py_repr conversation = Ok None ->
  exists turns events,
    conversation = PyList turns
    /\ format_conversation_events conversation = Ok (PyList events)
    /\ length events = length turns
    /\ Forall2 (fun turn ev =>
                  exists role content,
                    getitem turn "role" = Ok role
                    /\ getitem turn "content" = Ok content
                    /\ ev = event_of role content) turns events.
Proof.
  intros Hvalid.
  destruct conversation; try discriminate. simpl in Hvalid.
  destruct items as [|t r]; [discriminate|].
  apply validate_turns_none_inv in Hvalid.
  destruct (format_events_valid _ Hvalid) as (events & Hevents & Hall).
  exists (t :: r), events. split; [reflexivity|]. split.
  - unfold format_conversation_events, py_for. cbn [py_iter].
    rewrite Hevents. reflexivity.
  - split; [symmetry; eapply Forall2_length; exact Hall | exact Hall].
Qed.

End ValidatorFacts.

(** *** The validators on concrete arguments *)

Lemma valid_turn_user_hi :
  valid_turn (PyDict [(PyStr "role", PyStr "user"); (PyStr "content", PyStr "hi")]).
Proof.
  exists [(PyStr "role", PyStr "user"); (PyStr "content", PyStr "hi")], "user".
  repeat split. left. reflexivity.
Qed.

Lemma validate_scope_accepts_iff_witness :
  validate_scope Stub.repr (py_scope Stub.scope_u1) = None.
Proof.
  apply (proj2 (validate_scope_accepts_iff Stub.repr (py_scope Stub.scope_u1))).
  exists [(PyStr "user_id", PyStr "u1")].
  split; [reflexivity|]. split; [discriminate|].
  repeat constructor.
Defined.

Lemma validate_scope_names_first_offender_witness :
  validate_scope Stub.repr
    (PyDict [(PyStr "user_id", PyStr "u1"); (PyStr "age", PyInt 7%Z);
             (PyInt 1%Z, PyStr "x")]) =
    Some "Scope keys and values must be strings: age=7".
Proof.
  apply (validate_scope_names_first_offender Stub.repr
           [(PyStr "user_id", PyStr "u1")] (PyStr "age") (PyInt 7%Z)
           [(PyInt 1%Z, PyStr "x")]).
  - repeat constructor.
  - right. reflexivity.
Defined.

Lemma validate_conversation_accepts_iff_witness :
  validate_conversation Stub.repr
    (PyList [PyDict [(PyStr "role", PyStr "user");
                     (PyStr "content", PyStr "hi")]]) = Ok None.
Proof.
  apply (proj2 (validate_conversation_accepts_iff Stub.repr _)).
  eexists. split; [reflexivity|]. split; [discriminate|].
  constructor; [exact valid_turn_user_hi | constructor].
Defined.

Lemma validate_conversation_reports_index_witness :
  validate_conversation Stub.repr
    (PyList [PyDict [(PyStr "role", PyStr "user");
                     (PyStr "content", PyStr "hi")];
             PyDict [(PyStr "text", PyStr "no role, no content")]]) =
    Ok (Some "Turn 1 missing 'role' field").
Proof.
  apply (proj1 (proj2 (validate_conversation_reports_index Stub.repr
           [PyDict [(PyStr "role", PyStr "user"); (PyStr "content", PyStr "hi")]]
           (PyDict [(PyStr "text", PyStr "no role, no content")]) []
           (Forall_cons _ valid_turn_user_hi (Forall_nil _))))
         [(PyStr "text", PyStr "no role, no content")]);
    reflexivity.
Defined.

Lemma validate_conversation_unhashable_role_witness :
  validate_conversation Stub.repr
    (PyList [PyDict [(PyStr "role", PyDict []); (PyStr "content", PyStr "hi")]]) =
    Raise (TypeError "unhashable type: 'dict'").
Proof.
  apply (proj1 (validate_conversation_unhashable_role Stub.repr []
           [(PyStr "role", PyDict []); (PyStr "content", PyStr "hi")]
           (PyDict []) [] (Forall_nil _) eq_refl eq_refl eq_refl)).
Defined.

Lemma validated_conversation_events_witness :
  exists events,
    format_conversation_events
      (py_conversation [[("role", "user"); ("content", "hi")];
                        [("role", "assistant"); ("content", "hello")];
                        [("role", "user"); ("content", "bye")]]) =
      Ok (PyList events)
    /\ length events = 3%nat.
Proof.
  destruct (validated_conversation_events Stub.repr
              (py_conversation [[("role", "user"); ("content", "hi")];
                                [("role", "assistant"); ("content", "hello")];
                                [("role", "user"); ("content", "bye")]])
              eq_refl)
    as (turns & events & Hturns & Hevents & Hlen & _).
  exists events. split; [exact Hevents|].
  rewrite Hlen. injection Hturns as <-. reflexivity.
Defined.

(* ================================================================== *)
(** * Further properties of the formatters *)

Lemma prefix_other_head (c : ascii) (old rest : string) (a : ascii) :
  a <> c -> prefix (String a old) (String c rest) = false.
Proof.
  intros Hne. simpl. destruct (ascii_dec a c); [contradiction | reflexivity].
Qed.

Lemma replace_utc_offset (body : string) :
  (forall c, In c (list_ascii_of_string body) -> c <> "+"%char) ->
  str_replace "+00:00" "Z" (body ++ "+00:00") = body ++ "Z".
Proof.
  unfold str_replace. induction body as [|c r IH]; intros Hplus.
  - reflexivity.
  - change (String c r ++ "+00:00") with (String c (r ++ "+00:00")).
    cbn [replace_from].
    rewrite prefix_other_head.
    + rewrite IH; [reflexivity|].
      intros c' Hin. apply Hplus. right. exact Hin.
    + intros Heq. apply (Hplus c); [left; reflexivity | now symmetry].
Qed.

(** X7. When the clock renders the expiration as an ISO-8601 text with the
    UTC offset [+00:00] (and no other plus sign, as [isoformat] writes it),
    [format_ttl_expiration] returns the same text with that offset replaced
    by a literal [Z]. *)
Theorem format_ttl_expiration_utc_suffix clock ttl_seconds body :
  clock ttl_seconds = Ok (body ++ "+00:00") ->
  (forall c, In c (list_ascii_of_string body) -> c <> "+"%char) ->
  format_ttl_expiration clock ttl_seconds = Ok (body ++ "Z").
Proof.
  intros Hclock Hplus. unfold format_ttl_expiration. rewrite Hclock.
  cbn [res_bind]. now rewrite replace_utc_offset.
Qed.

Lemma format_ttl_expiration_utc_suffix_witness :
  format_ttl_expiration Fixture.clock_iso 3600%Z =
    Ok ("2025-01-01T01:00:00.000000" ++ "Z").
Proof.
  apply format_ttl_expiration_utc_suffix.
  - reflexivity.
  - intros c Hin Heq. subst c. simpl in Hin.
    repeat (destruct Hin as [Hin|Hin]; [discriminate Hin|]). exact Hin.
Defined.

Lemma dict_get_none_notin (d : StrDict) k :
  dict_get d k = None -> ~ In k (dict_keys d).
Proof.
  induction d as [|[k' v'] r IH]; simpl; [auto|].
  destruct (k' =? k) eqn:E; [discriminate|].
  apply String.eqb_neq in E. intros H [Heq|Hin]; [congruence | now apply IH].
Qed.

(** X8. [format_success_response] merges [data] over the envelope: each key
    of [data] appears in the result with the value from [data], which also
    overrides [message]; every other key reads as in the envelope built
    without [data]. *)
Theorem format_success_response_merge (data : StrDict)
    (message : option string) (k : string) :
  NoDup (dict_keys data) ->
  dict_get (format_success_response (Some data) message) k =
    match dict_get data k with
    | Some v => Some v
    | None => dict_get (format_success_response None message) k
    end.
Proof.
  intros Hnd. destruct data as [|kv r].
  - reflexivity.
  - change (format_success_response (Some (kv :: r)) message)
      with (dict_update (format_success_response None message) (kv :: r)).
    destruct (dict_get (kv :: r) k) as [v|] eqn:Hget.
    + now apply dict_get_update_in.
    + apply dict_get_update_notin. now apply dict_get_none_notin.
Qed.

Lemma format_success_response_merge_witness :
  dict_get (format_success_response
              (Some [("message", PyStr "from data"); ("count", PyInt 2%Z)])
              (Some "given"))
           "message" = Some (PyStr "from data").
Proof.
  rewrite format_success_response_merge.
  - reflexivity.
  - repeat constructor; simpl; intuition discriminate.
Defined.

(* ================================================================== *)
(** * Further properties of startup *)

Lemma lifespan_agent_engine ctor env st :
  agent_engine (lifespan ctor env st) = agent_engine st.
Proof.
  unfold lifespan. cbn [config set_config].
  destruct (is_valid env); [|reflexivity].
  destruct (ctor _ _); reflexivity.
Qed.

Lemma lifespan_config ctor env st : config (lifespan ctor env st) = env.
Proof.
  unfold lifespan. cbn [config set_config].
  destruct (is_valid env); [|reflexivity].
  destruct (ctor _ _); reflexivity.
Qed.

(** X9. Startup alone never makes the session ready: [lifespan] stores the
    environment's configuration and may store a client and raise the
    [initialized] flag, but it stores no engine, so in a fresh process every
    memory tool still answers with the not-ready error and makes no remote
    call, whatever the environment holds and whether or not the client could
    be constructed. *)
Theorem startup_alone_is_not_ready py_repr clock ctor ctor' env
    (t : ToolCall) :
  let st := lifespan ctor env AppState_new in
  config st = env
  /\ agent_engine st = PyNone
  /\ is_ready st = false
  /\ ((forall p l topics n, t <> InitializeMemoryBank p l topics n) ->
      run_tool py_repr ctor' clock t st =
        mkOut st [] (Ok (format_error_response NOT_READY None))).
Proof.
  cbv zeta.
  assert (Hengine : agent_engine (lifespan ctor env AppState_new) = PyNone)
    by apply lifespan_agent_engine.
  assert (Hready : is_ready (lifespan ctor env AppState_new) = false).
  { unfold is_ready. rewrite Hengine. apply andb_false_r. }
  split; [apply lifespan_config|]. split; [exact Hengine|].
  split; [exact Hready|].
  intros Hnot. destruct t; cbn [run_tool];
    try (unfold generate_memories, retrieve_memories, create_memory,
                delete_memory, list_memories;
         now rewrite require_ready_false).
  exfalso. eapply Hnot. reflexivity.
Qed.

Lemma startup_alone_is_not_ready_witness :
  run_tool Stub.repr Stub.ctor_ok Stub.clock
    (RetrieveMemoriesTool Stub.scope_u1 None 5%Z)
    (lifespan Stub.ctor_ok Stub.env_config AppState_new) =
  mkOut (lifespan Stub.ctor_ok Stub.env_config AppState_new) []
        (Ok (format_error_response NOT_READY None)).
Proof.
  apply (startup_alone_is_not_ready Stub.repr Stub.clock
           Stub.ctor_ok Stub.ctor_ok Stub.env_config).
  intros; discriminate.
Defined.

(** X10. With neither a project id nor an API key in the environment
    (unset or set to the empty string), startup constructs no client: the
    session only receives the configuration read from the environment.
    With nothing set at all that configuration is the default one; a
    location that is set is taken as it is, the empty string included. *)
Theorem startup_unconfigured getenv ctor (st : AppState) :
  (getenv "GOOGLE_CLOUD_PROJECT" = None
   \/ getenv "GOOGLE_CLOUD_PROJECT" = Some "") ->
  (getenv "GOOGLE_API_KEY" = None \/ getenv "GOOGLE_API_KEY" = Some "") ->
  is_valid (Config_from_env getenv) = false
  /\ lifespan ctor (Config_from_env getenv) st =
       set_config (Config_from_env getenv) st
  /\ ((forall name, getenv name = None) ->
       Config_from_env getenv = Config_default)
  /\ (forall v, getenv "GOOGLE_CLOUD_LOCATION" = Some v ->
       location (Config_from_env getenv) = v).
Proof.
  intros Hproject Hkey.
  assert (Hvalid : is_valid (Config_from_env getenv) = false).
  { unfold is_valid, Config_from_env, getenv_default.
    cbn [project_id api_key].
    destruct Hproject as [-> | ->]; destruct Hkey as [-> | ->]; reflexivity. }
  split; [exact Hvalid|]. split; [|split].
  - unfold lifespan. cbn [config set_config]. now rewrite Hvalid.
  - intros Hnone. unfold Config_from_env, getenv_default.
    now rewrite !Hnone.
  - intros v Hv. unfold Config_from_env, getenv_default. cbn [location].
    now rewrite Hv.
Qed.

Lemma startup_unconfigured_witness :
  lifespan Stub.ctor_ok (Config_from_env Fixture.env_empty) AppState_new =
    set_config Config_default AppState_new.
Proof.
  destruct (startup_unconfigured Fixture.env_empty Stub.ctor_ok AppState_new
              (or_introl eq_refl) (or_introl eq_refl))
    as (_ & Hlife & Hdefault & _).
  rewrite Hlife. rewrite Hdefault; reflexivity.
Defined.

(** X11. An API key alone makes the environment's configuration valid;
    startup then constructs the client from the project id, which is the
    empty string, and the location: the key itself is not handed to the
    client.  A failure to construct the client is swallowed and leaves the
    session with the configuration only. *)
Theorem startup_with_api_key_only getenv ctor (st : AppState) key :
  getenv "GOOGLE_CLOUD_PROJECT" = None ->
  getenv "GOOGLE_API_KEY" = Some key ->
  key <> "" ->
  let cfg := Config_from_env getenv in
  is_valid cfg = true
  /\ (forall cl, ctor "" (location cfg) = Ok cl ->
       lifespan ctor cfg st =
         mkAppState (Some cl) (agent_engine st) cfg true)
  /\ (forall e, ctor "" (location cfg) = Raise e ->
       lifespan ctor cfg st = set_config cfg st).
Proof.
  intros Hproject Hkey Hne. cbv zeta.
  assert (Hp : project_id (Config_from_env getenv) = "").
  { unfold Config_from_env, getenv_default. cbn [project_id].
    now rewrite Hproject. }
  assert (Hvalid : is_valid (Config_from_env getenv) = true).
  { unfold is_valid. rewrite Hp. cbn [String.eqb negb].
    unfold Config_from_env. cbn [api_key]. rewrite Hkey.
    apply negb_true_iff. now apply String.eqb_neq. }
  split; [exact Hvalid|]. split.
  - intros cl Hcl. unfold lifespan. cbn [config set_config].
    rewrite Hvalid, Hp, Hcl. reflexivity.
  - intros e He. unfold lifespan. cbn [config set_config].
    rewrite Hvalid, Hp, He. reflexivity.
Qed.

Lemma startup_with_api_key_only_witness :
  lifespan Stub.ctor_ok (Config_from_env Fixture.env_api_key_only) AppState_new =
    mkAppState (Some Stub.client_ok) PyNone
               (mkConfig "" "us-central1" None (Some "k-123")) true.
Proof.
  assert (Hkey : "k-123" <> "") by discriminate.
  destruct (startup_with_api_key_only Fixture.env_api_key_only Stub.ctor_ok
              AppState_new "k-123" eq_refl eq_refl Hkey)
    as (_ & Hok & _).
  apply (Hok Stub.client_ok). reflexivity.
Defined.

(* ================================================================== *)
(** * Further properties of the tools *)


(** From a statement on a run to a [wp] goal. *)
Ltac wp_of_calls :=
  match goal with
  | |- out_calls (?m ?s) = ?cs => change (wp m s (fun _ calls _ => calls = cs))
  end.

Ltac wp_of_res :=
  match goal with
  | |- out_res (?m ?s) = ?r0 => change (wp m s (fun _ _ r => r = r0))
  end.

Lemma bind_lift_raise {A B} (e : Exn) (f : A -> M B) st :
  bind (lift (Raise e)) f st = mkOut st [] (Raise e).
Proof. reflexivity. Qed.

(** ** [initialize_memory_bank] *)

(** X12. When [initialize_memory_bank] returns a success envelope, the
    session is ready: it holds the client just constructed and, as its
    engine, the very value that client's one [get] or [create] call
    returned; [project_id] and [location] of the configuration are
    overwritten while its engine name and API key are kept, and the
    envelope reports that engine's resource name with the project id and
    the location. *)
Theorem initialize_success_makes_ready ctor p l topics n (st : AppState) env :
  out_res (initialize_memory_bank ctor p l topics n st) = Ok env ->
  dict_get env "status" = Some (PyStr "success") ->
  let st' := out_state (initialize_memory_bank ctor p l topics n st) in
  is_ready st' = true
  /\ initialized st' = true
  /\ (exists cl c,
        ctor p l = Ok cl
        /\ client st' = Some cl
        /\ out_calls (initialize_memory_bank ctor p l topics n st) = [c]
        /\ cl c = Ok (agent_engine st'))
  /\ config st' = mkConfig p l (agent_engine_name (config st))
                           (api_key (config st))
  /\ exists name,
       api_resource_name (agent_engine st') = Ok name
       /\ env = [("status", PyStr "success");
                 ("agent_engine_name", name);
                 ("project_id", PyStr p);
                 ("location", PyStr l)].
Proof.
  cbv zeta.
  match goal with
  | |- out_res (?m st) = Ok env -> ?S -> ?P =>
      change (wp m st (fun st' calls r =>
                r = Ok env -> S ->
                is_ready st' = true
                /\ initialized st' = true
                /\ (exists cl c,
                      ctor p l = Ok cl
                      /\ client st' = Some cl
                      /\ calls = [c]
                      /\ cl c = Ok (agent_engine st'))
                /\ config st' = mkConfig p l (agent_engine_name (config st))
                                         (api_key (config st))
                /\ exists name,
                     api_resource_name (agent_engine st') = Ok name
                     /\ env = [("status", PyStr "success");
                               ("agent_engine_name", name);
                               ("project_id", PyStr p);
                               ("location", PyStr l)]))
  end.
  unfold initialize_memory_bank.
  repeat wp_step; cbv beta; cbn [app]; intros Henv Hstatus;
    injection Henv as <-; try discriminate Hstatus.
  all: match goal with
       | Hcall : ?cl ?c = Ok ?e, H : api_resource_name ?e = Ok ?nm |- _ =>
           assert (Hengine : is_not_None e = true)
             by (destruct e; [discriminate H | reflexivity..]);
           unfold is_ready; cbn; rewrite Hengine;
           split; [reflexivity|]; split; [reflexivity|];
           split; [exists cl, c; repeat split; exact Hcall|];
           split; [reflexivity|];
           exists nm; split; [exact H | reflexivity]
       end.
Qed.

Lemma initialize_success_makes_ready_witness :
  is_ready (out_state (initialize_memory_bank Stub.ctor_ok "p1" "us-central1"
                         None None AppState_new)) = true
  /\ exists c,
       out_calls (initialize_memory_bank Stub.ctor_ok "p1" "us-central1"
                    None None AppState_new) = [c]
       /\ Stub.client_ok c =
          Ok (agent_engine
                (out_state (initialize_memory_bank Stub.ctor_ok "p1"
                              "us-central1" None None AppState_new))).
Proof.
  destruct (initialize_success_makes_ready Stub.ctor_ok "p1" "us-central1"
              None None AppState_new
              [("status", PyStr "success");
               ("agent_engine_name", Stub.engine_name);
               ("project_id", PyStr "p1");
               ("location", PyStr "us-central1")]
              eq_refl eq_refl)
    as (Hready & _ & (cl & c & Hctor & _ & Hcalls & Hcall) & _).
  split; [exact Hready|].
  exists c. split; [exact Hcalls|].
  assert (Hcl : Stub.client_ok = cl)
    by (change (Ok Stub.client_ok = Ok cl) in Hctor; congruence).
  rewrite Hcl. exact Hcall.
Defined.



(** ** All tools *)

(** X14. No tool retries: every tool invocation makes at most one remote
    call, and none at all when [initialize_memory_bank] cannot construct its
    client. *)
Theorem at_most_one_remote_call py_repr ctor clock (t : ToolCall)
    (st : AppState) :
  (length (out_calls (run_tool py_repr ctor clock t st)) <= 1)%nat
  /\ (forall p l topics n e,
        t = InitializeMemoryBank p l topics n -> ctor p l = Raise e ->
        out_calls (run_tool py_repr ctor clock t st) = []).
Proof.
  destruct t as [p l topics n| | | | |].
  1: {
    pose proof (initialize_memory_bank_post ctor p l topics n st) as Hpost.
    unfold wp in Hpost. destruct Hpost as (_ & Hraise & Hok).
    cbn [run_tool]. split.
    - destruct (ctor p l) as [cl|e].
      + destruct (Hok cl eq_refl) as (c & -> & _). simpl. lia.
      + destruct (Hraise e eq_refl) as (_ & -> & _). simpl. lia.
    - intros p' l' topics' n' e Heq He. injection Heq as <- <- <- <-.
      now destruct (Hraise e He) as (_ & -> & _). }
  all: (split; [|intros; discriminate]);
       match goal with
       | |- context [run_tool ?r ?c ?k ?t ?s] =>
           pose proof (memory_tools_post r c k t s) as Hpost
       end;
       unfold wp, tool_post in Hpost;
       destruct Hpost as (_ & _ & [-> | (cl & c & _ & -> & _)]);
       try (intros; discriminate); simpl; lia.
Qed.

Lemma at_most_one_remote_call_witness :
  out_calls (run_tool Stub.repr Stub.ctor_fail Stub.clock
               (InitializeMemoryBank "p1" "us-central1" None None)
               Stub.ready) = [].
Proof.
  apply (proj2 (at_most_one_remote_call Stub.repr Stub.ctor_fail Stub.clock
                  (InitializeMemoryBank "p1" "us-central1" None None)
                  Stub.ready)
               "p1" "us-central1" None None
               (mkExn "DefaultCredentialsError" "credentials not found"));
    reflexivity.
Defined.

Lemma generate_memories_state py_repr conversation scope w st :
  wp (generate_memories py_repr conversation scope w) st
     (fun st' _ _ => st' = st).
Proof. unfold generate_memories. repeat wp_step; reflexivity. Qed.

(** X15. The five memory tools only read the session: whatever their
    arguments are, well-typed or not, and whatever the remote service
    answers, the session state after the call is the state before it. *)
Theorem memory_tools_leave_session py_repr clock (st : AppState) :
  (forall conversation scope w,
      out_state (generate_memories py_repr conversation scope w st) = st)
  /\ (forall scope q top_k,
      out_state (retrieve_memories py_repr scope q top_k st) = st)
  /\ (forall fact scope ttl,
      out_state (create_memory py_repr clock fact scope ttl st) = st)
  /\ (forall name, out_state (delete_memory name st) = st)
  /\ (forall page_size, out_state (list_memories py_repr page_size st) = st).
Proof.
  split; [|split; [|split; [|split]]].
  - intros. apply generate_memories_state.
  - intros. apply (retrieve_memories_post py_repr scope q top_k st).
  - intros. apply (create_memory_post py_repr clock fact scope ttl st).
  - intros. apply (delete_memory_post name st).
  - intros. apply (list_memories_post py_repr page_size st).
Qed.

(** Symbolic execution that also reduces a [match] on a constructor. *)
Ltac wp_run := repeat (cbv beta iota zeta; wp_step).

(** What is known of a value that a branch has named afresh. *)
Ltac leaf_known :=
  cbv beta; cbn [app];
  repeat match goal with
         | H : Ok _ = Raise _ |- _ => discriminate H
         | H : Raise _ = Ok _ |- _ => discriminate H
         | H : Some _ = None |- _ => discriminate H
         | H : None = Some _ |- _ => discriminate H
         | H : true = false |- _ => discriminate H
         | H : false = true |- _ => discriminate H
         | H : Ok ?a = Ok ?b |- _ =>
             injection H as H; first [subst a | subst b]
         | H : Some ?a = Some ?b |- _ =>
             injection H as H; first [subst a | subst b]
         end.

(** ** [generate_memories] *)

(** X16. The [TypeError] that [validate_conversation] raises on an
    unhashable role is raised outside the [try] block of
    [generate_memories]: on a ready session and a valid scope the tool
    raises it to its caller instead of returning an envelope, and makes no
    remote call. *)
Theorem generate_memories_propagates_validation_exception
    py_repr conversation scope w (st : AppState) e :
  is_ready st = true ->
  validate_scope py_repr scope = None ->
  validate_conversation py_repr conversation = Raise e ->
  generate_memories py_repr conversation scope w st = mkOut st [] (Raise e).
Proof.
  intros Hready Hscope Hconv. unfold generate_memories.
  rewrite require_ready_true by assumption.
  rewrite Hscope. cbn [return_if_error]. rewrite Hconv.
  apply bind_lift_raise.
Qed.

Lemma generate_memories_propagates_validation_exception_witness :
  generate_memories Stub.repr
    (PyList [PyDict [(PyStr "role", PyList []); (PyStr "content", PyStr "hi")]])
    (py_scope Stub.scope_u1) true Stub.ready =
  mkOut Stub.ready [] (Raise (TypeError "unhashable type: 'list'")).
Proof.
  apply generate_memories_propagates_validation_exception; reflexivity.
Defined.

(** X17. On a ready session with valid arguments [generate_memories] makes
    one remote call: it names the session's engine and carries the events
    built from the conversation, the scope as given and the
    [wait_for_completion] flag. *)
Theorem generate_memories_remote_call
    py_repr conversation scope w (st : AppState) cl name :
  is_ready st = true ->
  validate_scope py_repr scope = None ->
  validate_conversation py_repr conversation = Ok None ->
  client st = Some cl ->
  api_resource_name (agent_engine st) = Ok name ->
  exists events,
    format_conversation_events conversation = Ok (PyList events)
    /\ out_calls (generate_memories py_repr conversation scope w st) =
       [GenerateMemories name (py_dict [("events", PyList events)]) scope
          (py_dict [("wait_for_completion", PyBool w)])].
Proof.
  intros Hready Hscope Hconv Hcl Hname.
  assert (Hevents : exists events,
             format_conversation_events conversation = Ok (PyList events)).
  { destruct conversation; try discriminate. simpl in Hconv.
    destruct items as [|t r]; [discriminate|].
    apply validate_turns_none_inv in Hconv.
    destruct (format_events_valid _ Hconv) as (events & Hevents & _).
    exists events. unfold format_conversation_events, py_for. cbn [py_iter].
    now rewrite Hevents. }
  destruct Hevents as (events & Hevents). exists events.
  split; [exact Hevents|].
  wp_of_calls. unfold generate_memories.
  wp_run; leaf_known; congruence.
Qed.

Lemma generate_memories_remote_call_witness :
  exists events,
    out_calls (generate_memories Stub.repr
                 (py_conversation [[("role", "user"); ("content", "hi")]])
                 (py_scope Stub.scope_u1) false Stub.ready) =
    [GenerateMemories Stub.engine_name (py_dict [("events", PyList events)])
       (py_scope Stub.scope_u1)
       (py_dict [("wait_for_completion", PyBool false)])].
Proof.
  destruct (generate_memories_remote_call Stub.repr
              (py_conversation [[("role", "user"); ("content", "hi")]])
              (py_scope Stub.scope_u1) false Stub.ready
              Stub.client_ok Stub.engine_name
              eq_refl eq_refl eq_refl eq_refl eq_refl)
    as (events & _ & Hcalls).
  exists events. exact Hcalls.
Defined.

(** X18. One entry of the generated memories: [action] is the item's
    [action] or [None]; [fact] is read from the item's nested [memory] when
    the item has one, and then only from there ([None] when the nested
    object has no [fact], whatever the item itself holds), and from the
    item itself otherwise.  Building an entry never raises. *)
Theorem generated_entry_reads_nested_memory (mem : PyVal) :
  exists action fact,
    generated_entry mem = Ok (py_dict [("action", action); ("fact", fact)])
    /\ getattr3 mem "action" PyNone = Ok action
    /\ (forall m, getattr mem "memory" = Ok m ->
          getattr3 m "fact" PyNone = Ok fact)
    /\ (forall m, getattr mem "memory" = Ok m -> hasattr m "fact" = false ->
          fact = PyNone)
    /\ (hasattr mem "memory" = false -> getattr3 mem "fact" PyNone = Ok fact).
Proof.
  destruct (getattr3_total mem "action" PyNone) as (action & Haction & _).
  unfold generated_entry, hasattr. rewrite Haction. cbn [res_bind].
  destruct (getattr mem "memory") as [m|e] eqn:Hm.
  - rewrite (getattr3_present _ _ PyNone _ Hm). cbn [res_bind].
    destruct (getattr3_total m "fact" PyNone) as (fact & Hfact & _ & Hnone).
    rewrite Hfact. cbn [res_bind]. exists action, fact.
    repeat split; try congruence.
    intros m' Hm' Hmissing. injection Hm' as <-. auto.
  - destruct (getattr3_total mem "fact" PyNone) as (fact & Hfact & _).
    rewrite Hfact. cbn [res_bind]. exists action, fact.
    repeat split; try congruence; intros; discriminate.
Qed.

Lemma generated_entry_reads_nested_memory_witness :
  generated_entry
    (PyObj "GeneratedMemory" "g"
       [("action", PyStr "CREATED");
        ("fact", PyStr "outer");
        ("memory", PyObj "Memory" "m" [("name", PyStr "memories/m1")])]) =
  Ok (py_dict [("action", PyStr "CREATED"); ("fact", PyNone)]).
Proof.
  destruct (generated_entry_reads_nested_memory
              (PyObj "GeneratedMemory" "g"
                 [("action", PyStr "CREATED");
                  ("fact", PyStr "outer");
                  ("memory", PyObj "Memory" "m" [("name", PyStr "memories/m1")])]))
    as (action & fact & Hentry & Haction & _ & Hnone & _).
  rewrite Hentry. injection Haction as <-.
  rewrite (Hnone (PyObj "Memory" "m" [("name", PyStr "memories/m1")])
                 eq_refl eq_refl).
  reflexivity.
Defined.

(** ** [retrieve_memories] *)

(** X19. On a ready session and a valid scope [retrieve_memories] makes one
    remote call for the session's engine and the scope as given.  A
    non-empty [search_query] is sent with [top_k] as given, unchecked; an
    omitted or empty [search_query] sends no search parameters, so [top_k]
    is then ignored. *)
Theorem retrieve_memories_remote_call
    py_repr scope search_query top_k (st : AppState) cl name :
  is_ready st = true ->
  validate_scope py_repr scope = None ->
  client st = Some cl ->
  api_resource_name (agent_engine st) = Ok name ->
  out_calls (retrieve_memories py_repr scope search_query top_k st) =
    [RetrieveMemories name scope
       (match search_query with
        | Some q =>
            if negb (q =? "")
            then Some (py_dict [("search_query", PyStr q);
                                ("top_k", PyInt top_k)])
            else None
        | None => None
        end)].
Proof.
  intros Hready Hscope Hcl Hname.
  wp_of_calls. unfold retrieve_memories.
  destruct search_query as [q|]; [destruct (negb (q =? ""))|];
    wp_run; leaf_known; congruence.
Qed.

Lemma retrieve_memories_remote_call_witness :
  out_calls (retrieve_memories Stub.repr (py_scope Stub.scope_u1)
               (Some "python") (-1)%Z Stub.ready) =
    [RetrieveMemories Stub.engine_name (py_scope Stub.scope_u1)
       (Some (py_dict [("search_query", PyStr "python");
                       ("top_k", PyInt (-1)%Z)]))].
Proof.
  apply (retrieve_memories_remote_call Stub.repr (py_scope Stub.scope_u1)
           (Some "python") (-1)%Z Stub.ready Stub.client_ok Stub.engine_name);
    reflexivity.
Defined.

(** ** [delete_memory] *)



(** ** [create_memory] *)

(** X21. On a ready session with a valid fact and scope, the one remote
    call of [create_memory] carries an [expire_time], computed by
    [format_ttl_expiration], exactly when [ttl_seconds] is given and
    positive; with [ttl_seconds] omitted, zero or negative it carries no
    configuration at all. *)
Theorem create_memory_expiration
    py_repr clock fact scope (st : AppState) cl name :
  is_ready st = true ->
  validate_memory_fact fact = None ->
  validate_scope py_repr scope = None ->
  client st = Some cl ->
  api_resource_name (agent_engine st) = Ok name ->
  (forall ttl iso, (0 < ttl)%Z -> clock ttl = Ok iso ->
     out_calls (create_memory py_repr clock fact scope (Some ttl) st) =
       [CreateMemory name fact scope
          (py_dict [("expire_time", PyStr (str_replace "+00:00" "Z" iso))])])
  /\ (forall ttl, ttl = None \/ (exists z, ttl = Some z /\ (z <= 0)%Z) ->
     out_calls (create_memory py_repr clock fact scope ttl st) =
       [CreateMemory name fact scope PyNone]).
Proof.
  intros Hready Hfact Hscope Hcl Hname. split.
  - intros ttl iso Hpos Hclock.
    eapply create_memory_remote_call_ttl; eassumption.
  - intros ttl Httl. eapply create_memory_remote_call_no_ttl; eassumption.
Qed.

Lemma create_memory_expiration_witness :
  out_calls (create_memory Stub.repr Fixture.clock_iso "likes dark mode"
               (py_scope Stub.scope_u1) (Some 3600%Z) Stub.ready) =
    [CreateMemory Stub.engine_name "likes dark mode" (py_scope Stub.scope_u1)
       (py_dict [("expire_time", PyStr "2025-01-01T01:00:00.000000Z")])].
Proof.
  apply (proj1 (create_memory_expiration Stub.repr Fixture.clock_iso
                  "likes dark mode" (py_scope Stub.scope_u1) Stub.ready
                  Stub.client_ok Stub.engine_name
                  eq_refl eq_refl eq_refl eq_refl eq_refl)
               3600%Z "2025-01-01T01:00:00.000000+00:00").
  - reflexivity.
  - reflexivity.
Defined.

(** ** What [generate_memories] returns *)

(** Uses what is known of [done] and of the attributes in a condition. *)
Ltac cond_known :=
  repeat match goal with
         | H : truthy ?d = _, H' : context [truthy ?d] |- _ =>
             rewrite H in H'; cbn [andb] in H'
         | H : getattr ?o ?n = _, H' : context [hasattr ?o ?n] |- _ =>
             unfold hasattr in H'; rewrite H in H';
             cbn [andb] in H'; try rewrite andb_false_r in H'
         end.

(** Identifies the values two runs of the same expression gave. *)
Ltac same_known :=
  repeat match goal with
         | H1 : ?x = Ok ?a, H2 : ?x = Ok ?b |- _ =>
             tryif constr_eq a b then fail
             else (rewrite H1 in H2; injection H2 as H2;
                   first [subst b | subst a])
         | H1 : ?x = Ok _, H2 : ?x = Raise _ |- _ =>
             rewrite H1 in H2; discriminate H2
         | H1 : ?x = Some ?a, H2 : ?x = Some ?b |- _ =>
             tryif constr_eq a b then fail
             else (rewrite H1 in H2; injection H2 as H2;
                   first [subst b | subst a])
         | H1 : ?x = true, H2 : ?x = false |- _ =>
             rewrite H1 in H2; discriminate H2
         end.

Ltac settle :=
  leaf_known;
  repeat (progress (same_known; cond_known; leaf_known));
  try congruence; try reflexivity.

(** X22. When the remote generation call returns an operation that is not
    done, or one without a [response], the success envelope of
    [generate_memories] holds exactly the operation's name, its [done]
    flag and the scope as given, and no [generated_memories]. *)
Theorem generate_memories_plain_result
    py_repr conversation scope w (st : AppState) cl name events
    operation operation_name done :
  is_ready st = true ->
  validate_scope py_repr scope = None ->
  validate_conversation py_repr conversation = Ok None ->
  client st = Some cl ->
  api_resource_name (agent_engine st) = Ok name ->
  format_conversation_events conversation = Ok events ->
  cl (GenerateMemories name (py_dict [("events", events)]) scope
        (py_dict [("wait_for_completion", PyBool w)])) = Ok operation ->
  getattr operation "name" = Ok operation_name ->
  getattr operation "done" = Ok done ->
  truthy done = false \/ (exists e, getattr operation "response" = Raise e) ->
  out_res (generate_memories py_repr conversation scope w st) =
    Ok [("status", PyStr "success");
        ("operation_name", operation_name);
        ("done", done);
        ("scope", scope)].
Proof.
  intros Hready Hscope Hconv Hcl Hname Hevents Hcall Hopname Hdone Hplain.
  wp_of_res. unfold generate_memories.
  destruct Hplain as [Hfalse | (e & Hresp)]; wp_run; settle.
Qed.

Lemma generate_memories_plain_result_witness :
  out_res (generate_memories Stub.repr
             (py_conversation [[("role", "user"); ("content", "hi")]])
             (py_scope Stub.scope_u1) true Stub.ready) =
    Ok [("status", PyStr "success");
        ("operation_name", PyStr "operations/op1");
        ("done", PyBool true);
        ("scope", py_scope Stub.scope_u1)].
Proof.
  eapply (generate_memories_plain_result Stub.repr
            (py_conversation [[("role", "user"); ("content", "hi")]])
            (py_scope Stub.scope_u1) true Stub.ready Stub.client_ok
            Stub.engine_name);
    try reflexivity.
  right. eexists. reflexivity.
Defined.

(** X23. When the operation is done and has a [response], the generated
    memories are read from its [generatedMemories] attribute if it has one,
    and from [generated_memories] only if it has not.  A non-empty list
    gives one entry per item under [generated_memories]; an empty
    [generatedMemories] gives no [generated_memories] key at all: the other
    attribute is not consulted. *)
Theorem generate_memories_field_precedence
    py_repr conversation scope w (st : AppState) cl name events
    operation operation_name done response :
  is_ready st = true ->
  validate_scope py_repr scope = None ->
  validate_conversation py_repr conversation = Ok None ->
  client st = Some cl ->
  api_resource_name (agent_engine st) = Ok name ->
  format_conversation_events conversation = Ok events ->
  cl (GenerateMemories name (py_dict [("events", events)]) scope
        (py_dict [("wait_for_completion", PyBool w)])) = Ok operation ->
  getattr operation "name" = Ok operation_name ->
  getattr operation "done" = Ok done ->
  truthy done = true ->
  getattr operation "response" = Ok response ->
  let res := out_res (generate_memories py_repr conversation scope w st) in
  let plain := [("status", PyStr "success");
                ("operation_name", operation_name);
                ("done", done);
                ("scope", scope)] in
  (forall gm entries,
      getattr response "generatedMemories" = Ok gm ->
      truthy gm = true ->
      py_for gm generated_entry = Ok entries ->
      res = Ok (plain ++ [("generated_memories", PyList entries)])%list)
  /\ (forall gm,
      getattr response "generatedMemories" = Ok gm ->
      truthy gm = false ->
      res = Ok plain)
  /\ (forall e gm entries,
      getattr response "generatedMemories" = Raise e ->
      getattr response "generated_memories" = Ok gm ->
      truthy gm = true ->
      py_for gm generated_entry = Ok entries ->
      res = Ok (plain ++ [("generated_memories", PyList entries)])%list).
Proof.
  intros Hready Hscope Hconv Hcl Hname Hevents Hcall Hopname Hdone Htrue Hresp.
  cbv zeta. split; [|split].
  - intros gm entries Hgm Hgmtrue Hentries.
    wp_of_res. unfold generate_memories. wp_run; settle.
  - intros gm Hgm Hgmfalse.
    wp_of_res. unfold generate_memories. wp_run; settle.
  - intros e gm entries Hcamel Hgm Hgmtrue Hentries.
    wp_of_res. unfold generate_memories. wp_run; settle.
Qed.

Lemma generate_memories_field_precedence_witness :
  out_res (generate_memories Stub.repr
             (py_conversation [[("role", "user"); ("content", "hi")]])
             (py_scope Stub.scope_u1) true Fixture.ready_generated) =
    Ok [("status", PyStr "success");
        ("operation_name", PyStr "operations/op3");
        ("done", PyBool true);
        ("scope", py_scope Stub.scope_u1)].
Proof.
  eapply (proj1 (proj2 (generate_memories_field_precedence Stub.repr
            (py_conversation [[("role", "user"); ("content", "hi")]])
            (py_scope Stub.scope_u1) true Fixture.ready_generated
            Fixture.client_generated Stub.engine_name _ _ _ _ _
            eq_refl eq_refl eq_refl eq_refl eq_refl eq_refl eq_refl
            eq_refl eq_refl eq_refl eq_refl)) (PyList []));
    reflexivity.
Defined.

(** ** What [retrieve_memories] and [list_memories] return *)

Lemma res_map_raises {A B} (f : A -> Res B) (l : list A) x e0 :
  In x l -> f x = Raise e0 -> exists e, res_map f l = Raise e.
Proof.
  induction l as [|y r IH]; intros Hin Hx; [contradiction|].
  cbn [res_map].
  destruct (f y) as [b|e] eqn:Hy; cbn [res_bind]; [|eauto].
  destruct Hin as [->|Hin]; [congruence|].
  destruct (IH Hin Hx) as (e & ->). cbn [res_bind]. eauto.
Qed.

(** X24. One malformed result fails the whole retrieval: if any item the
    remote service returned has no [memory] attribute, [retrieve_memories]
    returns an error envelope and none of the other memories. *)
Theorem retrieve_memories_malformed_item
    py_repr scope search_query top_k (st : AppState) cl name
    results items item e0 :
  is_ready st = true ->
  validate_scope py_repr scope = None ->
  client st = Some cl ->
  api_resource_name (agent_engine st) = Ok name ->
  cl (RetrieveMemories name scope
        (match search_query with
         | Some q =>
             if negb (q =? "")
             then Some (py_dict [("search_query", PyStr q);
                                 ("top_k", PyInt top_k)])
             else None
         | None => None
         end)) = Ok results ->
  py_list results = Ok items ->
  In item items ->
  getattr item "memory" = Raise e0 ->
  exists e,
    out_res (retrieve_memories py_repr scope search_query top_k st) =
      Ok (format_error_response (exn_str e) None).
Proof.
  intros Hready Hscope Hcl Hname Hcall Hlist Hin Hitem.
  assert (Hbody : format_retrieved py_repr search_query item = Raise e0)
    by (unfold format_retrieved; now rewrite Hitem).
  destruct (res_map_raises _ _ _ _ Hin Hbody) as (e & Hmap).
  exists e. wp_of_res. unfold retrieve_memories.
  destruct search_query as [q|]; [destruct (negb (q =? ""))|];
    wp_run; settle.
Qed.

Lemma retrieve_memories_malformed_item_witness :
  exists e,
    out_res (retrieve_memories Stub.repr (py_scope Stub.scope_u1) None 5%Z
               Fixture.ready_malformed) =
      Ok (format_error_response (exn_str e) None).
Proof.
  apply (retrieve_memories_malformed_item Stub.repr (py_scope Stub.scope_u1)
           None 5%Z Fixture.ready_malformed Fixture.client_malformed
           Stub.engine_name
           (PyList [PyObj "RetrievedMemory" "r1"
                      [("memory", Stub.memory "likes dark mode")];
                    PyObj "RetrievedMemory" "r2" []])
           [PyObj "RetrievedMemory" "r1"
              [("memory", Stub.memory "likes dark mode")];
            PyObj "RetrievedMemory" "r2" []]
           (PyObj "RetrievedMemory" "r2" [])
           (AttributeError (PyObj "RetrievedMemory" "r2" []) "memory"));
    try reflexivity.
  right. left. reflexivity.
Defined.




(** ** What [create_memory] does around its remote call *)



(** Evaluates a lookup in a dictionary with literal keys. *)
Ltac dict_known :=
  repeat match goal with
         | H : context [dict_get (dict_set _ _ _) _] |- _ =>
             cbn [dict_get dict_set String.eqb Ascii.eqb Bool.eqb] in H
         | H : context [dict_get (_ :: _) _] |- _ =>
             cbn [dict_get dict_set String.eqb Ascii.eqb Bool.eqb] in H
         end.

(** X27. After its remote call has returned an operation, [create_memory]
    formats the operation's [response] when that is truthy and the
    operation handle itself when the response is falsy; when the operation
    has no [response] attribute it returns an error envelope, although the
    remote call has been made. *)
Theorem create_memory_result
    py_repr clock fact scope ttl (st : AppState) cl c operation :
  client st = Some cl ->
  out_calls (create_memory py_repr clock fact scope ttl st) = [c] ->
  cl c = Ok operation ->
  let res := out_res (create_memory py_repr clock fact scope ttl st) in
  (forall response,
      getattr operation "response" = Ok response -> truthy response = true ->
      exists formatted,
        format_memory py_repr response = Ok formatted
        /\ res = Ok [("status", PyStr "success");
                     ("memory", py_dict formatted)])
  /\ (forall response,
      getattr operation "response" = Ok response -> truthy response = false ->
      exists formatted,
        format_memory py_repr operation = Ok formatted
        /\ res = Ok [("status", PyStr "success");
                     ("memory", py_dict formatted)])
  /\ (forall e,
      getattr operation "response" = Raise e ->
      res = Ok (format_error_response (exn_str e) None)).
Proof.
  intros Hcl Hcalls Hop. cbv zeta.
  assert (Hgoal : forall r0,
    wp (create_memory py_repr clock fact scope ttl) st
       (fun _ calls r => calls = [c] -> r = r0) ->
    out_res (create_memory py_repr clock fact scope ttl st) = r0).
  { intros r0 Hwp. apply Hwp. exact Hcalls. }
  split; [|split].
  - intros response Hresp Htrue.
    destruct (format_memory_returns py_repr response)
      as (n & f & s & cr & u & Hfm & _).
    eexists. split; [exact Hfm|].
    apply Hgoal. unfold create_memory.
    wp_run; cbv beta; cbn [app]; intros Hc; try discriminate Hc;
      injection Hc as Hc; subst c; dict_known; settle.
  - intros response Hresp Hfalse.
    destruct (format_memory_returns py_repr operation)
      as (n & f & s & cr & u & Hfm & _).
    eexists. split; [exact Hfm|].
    apply Hgoal. unfold create_memory.
    wp_run; cbv beta; cbn [app]; intros Hc; try discriminate Hc;
      injection Hc as Hc; subst c; dict_known; settle.
  - intros e He.
    apply Hgoal. unfold create_memory.
    wp_run; cbv beta; cbn [app]; intros Hc; try discriminate Hc;
      injection Hc as Hc; subst c; dict_known; settle.
Qed.

Lemma create_memory_result_witness :
  out_res (create_memory Stub.repr Stub.clock "likes dark mode"
             (py_scope Stub.scope_u1) None Fixture.ready_no_response) =
    Ok (format_error_response
          "'Operation' object has no attribute 'response'" None).
Proof.
  apply (proj2 (proj2 (create_memory_result Stub.repr Stub.clock
                         "likes dark mode" (py_scope Stub.scope_u1) None
                         Fixture.ready_no_response Fixture.client_no_response
                         (CreateMemory Stub.engine_name "likes dark mode"
                            (py_scope Stub.scope_u1) PyNone)
                         (PyObj "Operation" "Operation(op4)"
                            [("name", PyStr "operations/op4");
                             ("done", PyBool false)])
                         eq_refl eq_refl eq_refl))
               (AttributeError
                  (PyObj "Operation" "Operation(op4)"
                     [("name", PyStr "operations/op4");
                      ("done", PyBool false)])
                  "response")).
  reflexivity.
Defined.
